(** * timelapse.py: camera snapshot to cloud storage, one run

    A shallow embedding of [timelapse.py] and the properties of its three
    steps: [get_imou_access_token], [get_device_snapshot],
    [upload_to_google_drive], and of [main] which chains them.

    Conventions of the embedding.
    - A Python [str] is a Rocq [string] holding its UTF-8 encoding, so
      [s.encode('utf-8')] is the identity on the representation and
      concatenation is [String.append].
    - A value decoded from JSON is a [json]; a Python [dict] is an
      insertion-ordered association list, read from the front.
    - Whatever the program asks of the outside (environment variables, the
      clocks, the two HTTP libraries, the storage client) is a field of a
      [world]; what it does to the outside is recorded in a [state]: the
      files on disk and the list of calls made.
    - Console output is not modelled, the expressions evaluated to build it
      are, since they can raise. *)

From Stdlib Require Import ZArith String Ascii List Lia Bool DecimalString.
From stdpp Require Import base option strings gmap.
Import ListNotations.

Local Open Scope string_scope.
Local Open Scope Z_scope.

(** ** hashlib.md5

    RFC 1321 on 32-bit words kept in [Z], each operation reduced modulo
    2^32. *)
Module MD5.

Definition wrap (x : Z) : Z := x mod 2 ^ 32.
Definition add32 (x y : Z) : Z := wrap (x + y).
Definition not32 (x : Z) : Z := Z.lxor x 0xffffffff.
Definition rotl32 (x : Z) (n : Z) : Z :=
  Z.lor (wrap (Z.shiftl x n)) (Z.shiftr x (32 - n)).

Definition K : list Z :=
  [ 0xd76aa478; 0xe8c7b756; 0x242070db; 0xc1bdceee; 0xf57c0faf; 0x4787c62a; 0xa8304613; 0xfd469501;
    0x698098d8; 0x8b44f7af; 0xffff5bb1; 0x895cd7be; 0x6b901122; 0xfd987193; 0xa679438e; 0x49b40821;
    0xf61e2562; 0xc040b340; 0x265e5a51; 0xe9b6c7aa; 0xd62f105d; 0x02441453; 0xd8a1e681; 0xe7d3fbc8;
    0x21e1cde6; 0xc33707d6; 0xf4d50d87; 0x455a14ed; 0xa9e3e905; 0xfcefa3f8; 0x676f02d9; 0x8d2a4c8a;
    0xfffa3942; 0x8771f681; 0x6d9d6122; 0xfde5380c; 0xa4beea44; 0x4bdecfa9; 0xf6bb4b60; 0xbebfbc70;
    0x289b7ec6; 0xeaa127fa; 0xd4ef3085; 0x04881d05; 0xd9d4d039; 0xe6db99e5; 0x1fa27cf8; 0xc4ac5665;
    0xf4292244; 0x432aff97; 0xab9423a7; 0xfc93a039; 0x655b59c3; 0x8f0ccc92; 0xffeff47d; 0x85845dd1;
    0x6fa87e4f; 0xfe2ce6e0; 0xa3014314; 0x4e0811a1; 0xf7537e82; 0xbd3af235; 0x2ad7d2bb; 0xeb86d391 ].

Definition shifts : list Z :=
  [ 7; 12; 17; 22; 7; 12; 17; 22; 7; 12; 17; 22; 7; 12; 17; 22;
    5;  9; 14; 20; 5;  9; 14; 20; 5;  9; 14; 20; 5;  9; 14; 20;
    4; 11; 16; 23; 4; 11; 16; 23; 4; 11; 16; 23; 4; 11; 16; 23;
    6; 10; 15; 21; 6; 10; 15; 21; 6; 10; 15; 21; 6; 10; 15; 21 ].

Record regs := Regs { rA : Z; rB : Z; rC : Z; rD : Z }.

Definition init : regs :=
  Regs 0x67452301 0xefcdab89 0x98badcfe 0x10325476.

(** One of the 64 operations of a block: [m] is the block as sixteen
    little-endian words, [i] the operation's index. *)
Definition round (m : list Z) (r : regs) (i : nat) : regs :=
  let '(Regs a b c d) := r in
  let iz := Z.of_nat i in
  let '(f, g) :=
    if iz <? 16 then (Z.lor (Z.land b c) (Z.land (not32 b) d), iz)
    else if iz <? 32 then (Z.lor (Z.land d b) (Z.land (not32 d) c), (5 * iz + 1) mod 16)
    else if iz <? 48 then (Z.lxor (Z.lxor b c) d, (3 * iz + 5) mod 16)
    else (Z.lxor c (Z.lor b (not32 d)), (7 * iz) mod 16) in
  let f' := add32 (add32 (add32 f a) (nth i K 0)) (nth (Z.to_nat g) m 0) in
  Regs d (add32 b (rotl32 f' (nth i shifts 0))) b c.

Definition block (r : regs) (m : list Z) : regs :=
  let '(Regs a b c d) := fold_left (round m) (seq 0 64) r in
  Regs (add32 (rA r) a) (add32 (rB r) b) (add32 (rC r) c) (add32 (rD r) d).

(** [n] as [k] little-endian bytes. *)
Fixpoint le_bytes (k : nat) (n : Z) : list Z :=
  match k with
  | O => []
  | S k' => n mod 256 :: le_bytes k' (n / 256)
  end.

(** The padded message: a 0x80 byte, zeros up to 56 modulo 64, then the
    bit length on eight bytes. *)
Definition pad (msg : list Z) : list Z :=
  let len := Z.of_nat (length msg) in
  let zeros := Z.to_nat ((55 - len) mod 64) in
  msg ++ [0x80] ++ repeat 0 zeros ++ le_bytes 8 ((8 * len) mod 2 ^ 64).

Fixpoint le_words (bs : list Z) : list Z :=
  match bs with
  | b0 :: b1 :: b2 :: b3 :: rest =>
      (b0 + b1 * 2 ^ 8 + b2 * 2 ^ 16 + b3 * 2 ^ 24) :: le_words rest
  | _ => []
  end.

Fixpoint blocks (n : nat) (ws : list Z) (r : regs) : regs :=
  match n with
  | O => r
  | S n' => blocks n' (skipn 16 ws) (block r (firstn 16 ws))
  end.

Definition digest (msg : list Z) : list Z :=
  let ws := le_words (pad msg) in
  let '(Regs a b c d) := blocks (length ws / 16) ws init in
  le_bytes 4 a ++ le_bytes 4 b ++ le_bytes 4 c ++ le_bytes 4 d.

Definition hex_digit (n : Z) : ascii :=
  if n <? 10 then ascii_of_nat (Z.to_nat (48 + n))
  else ascii_of_nat (Z.to_nat (87 + n)).

Fixpoint hex (bs : list Z) : string :=
  match bs with
  | [] => ""
  | b :: rest => String (hex_digit (b / 16)) (String (hex_digit (b mod 16)) (hex rest))
  end.

Fixpoint bytes_of (s : string) : list Z :=
  match s with
  | EmptyString => []
  | String c rest => Z.of_nat (nat_of_ascii c) :: bytes_of rest
  end.

(** [hashlib.md5(b).hexdigest()] for the bytes [b] of [s]. *)
Definition hexdigest (s : string) : string := hex (digest (bytes_of s)).

End MD5.

(** ** Python values and the operations the program applies to them *)

(** A value decoded by [response.json()]. A Python float is kept as its
    [repr], which identifies it. *)
#[warnings="-register-all"] Inductive json : Type :=
| JNull
| JBool (b : bool)
| JInt (n : Z)
| JFloat (r : string)
| JStr (s : string)
| JArr (items : list json)
| JObj (fields : list (string * json)).

Inductive exn : Type :=
| Exception (msg : string)
| AttributeError
| TypeError
| KeyError
| IndexError
| FileNotFoundError (path : string)
| HTTPError (status : Z)
| Timeout
| LibraryError (what : string).

(** What a Python expression or call comes to: a value, or an exception on
    its way up. *)
Inductive outcome (A : Type) : Type :=
| Return (a : A)
| Raise (e : exn).
Arguments Return {A} a.
Arguments Raise {A} e.

#[export] Instance outcome_ret : MRet outcome := fun A a => Return a.
#[export] Instance outcome_bind : MBind outcome := fun A B f m =>
  match m with
  | Return a => f a
  | Raise e => Raise e
  end.

Module Py.

(** [str(n)] for an [int]. *)
Definition str_of_int (n : Z) : string :=
  DecimalString.NilZero.string_of_int (Z.to_int n).

(** [needle in hay] for two [str]. *)
Fixpoint contains (needle hay : string) : bool :=
  String.prefix needle hay ||
  match hay with
  | EmptyString => false
  | String _ rest => contains needle rest
  end.

(** A byte of the form 10xxxxxx continues a UTF-8 character. *)
Definition continuation (c : ascii) : bool :=
  let n := Z.of_nat (nat_of_ascii c) in (128 <=? n) && (n <? 192).

(** [len(s)] for a [str]: its number of characters. *)
Fixpoint str_len (s : string) : Z :=
  match s with
  | EmptyString => 0
  | String c rest => (if continuation c then 0 else 1) + str_len rest
  end.

Fixpoint take_continuation (s : string) : string :=
  match s with
  | EmptyString => EmptyString
  | String c rest =>
      if continuation c then String c (take_continuation rest) else EmptyString
  end.

(** [s[0]] for a non-empty [str]. *)
Definition first_char (s : string) : option string :=
  match s with
  | EmptyString => None
  | String c rest => Some (String c (take_continuation rest))
  end.

(** [d.get(key)] on the association list of a [dict]. *)
Fixpoint lookup (key : string) (fields : list (string * json)) : option json :=
  match fields with
  | [] => None
  | (k, v) :: rest => if String.eqb k key then Some v else lookup key rest
  end.

(** [d[key] = v]: a key already there keeps its place. *)
Fixpoint assign (key : string) (v : json) (fields : list (string * json))
  : list (string * json) :=
  match fields with
  | [] => [(key, v)]
  | (k, v') :: rest =>
      if String.eqb k key then (k, v) :: rest else (k, v') :: assign key v rest
  end.

(** [v == s] for a [str] [s]. *)
Definition eq_str (v : json) (s : string) : bool :=
  match v with
  | JStr s' => String.eqb s' s
  | _ => false
  end.

(** [bool(v)]. *)
Definition truthy (v : json) : bool :=
  match v with
  | JNull => false
  | JBool b => b
  | JInt n => negb (n =? 0)
  | JFloat r => negb (String.eqb r "0.0" || String.eqb r "-0.0")
  | JStr s => negb (String.eqb s "")
  | JArr items => match items with [] => false | _ => true end
  | JObj fields => match fields with [] => false | _ => true end
  end.

(** [v.get(key, default)]: only a [dict] has the method. *)
Definition get (v : json) (key : string) (default : json) : outcome json :=
  match v with
  | JObj fields =>
      match lookup key fields with
      | Some x => Return x
      | None => Return default
      end
  | _ => Raise AttributeError
  end.

(** [key in v] for a [str] [key]: a key of a [dict], an element of a
    [list], a substring of a [str]; no other value is a container. *)
Definition contains_key (key : string) (v : json) : outcome bool :=
  match v with
  | JObj fields => Return (bool_decide (is_Some (lookup key fields)))
  | JArr items => Return (existsb (fun x => eq_str x key) items)
  | JStr s => Return (contains key s)
  | _ => Raise TypeError
  end.

(** [v[key]] for a [str] [key]. *)
Definition getitem (v : json) (key : string) : outcome json :=
  match v with
  | JObj fields =>
      match lookup key fields with
      | Some x => Return x
      | None => Raise KeyError
      end
  | _ => Raise TypeError
  end.

(** [v[0]]. The keys of a decoded [dict] are [str], so [0] is none of
    them. *)
Definition getitem0 (v : json) : outcome json :=
  match v with
  | JArr items =>
      match items with
      | x :: _ => Return x
      | [] => Raise IndexError
      end
  | JStr s =>
      match first_char s with
      | Some c => Return (JStr c)
      | None => Raise IndexError
      end
  | JObj _ => Raise KeyError
  | _ => Raise TypeError
  end.

(** [len(v)]. *)
Definition len (v : json) : outcome Z :=
  match v with
  | JArr items => Return (Z.of_nat (length items))
  | JObj fields => Return (Z.of_nat (length fields))
  | JStr s => Return (str_len s)
  | _ => Raise TypeError
  end.

(** [v[:20]], evaluated for its exceptions only: a [str] and a [list] can
    be sliced, a [dict] has no such key, nothing else is subscriptable. *)
Definition slice_prefix (v : json) : outcome unit :=
  match v with
  | JStr _ | JArr _ => Return tt
  | JObj _ => Raise KeyError
  | _ => Raise TypeError
  end.

(** *** [repr] and [str] *)

(** [n] on [k] hexadecimal digits. *)
Fixpoint hex_fixed (k : nat) (n : Z) : string :=
  match k with
  | O => ""
  | S k' => hex_fixed k' (n / 16) +:+ String (MD5.hex_digit (n mod 16)) ""
  end.

(** The characters of a [str], each with the bytes of its encoding: a
    continuation byte goes with the bytes before it. *)
Fixpoint chars (s : string) : list string :=
  match s with
  | EmptyString => []
  | String c rest =>
      match rest with
      | String c' _ =>
          if continuation c' then
            match chars rest with
            | ch :: others => String c ch :: others
            | [] => [String c ""]
            end
          else String c "" :: chars rest
      | EmptyString => [String c ""]
      end
  end.

(** The code point a character encodes: the payload of its first byte, then
    six bits for each continuation byte. *)
Definition code_point (ch : string) : Z :=
  match ch with
  | EmptyString => 0
  | String c rest =>
      let n := Z.of_nat (nat_of_ascii c) in
      let lead := if n <? 128 then n
                  else if n <? 224 then n - 192
                  else if n <? 240 then n - 224
                  else n - 240 in
      fold_left (fun acc b => acc * 64 + (b - 128)) (MD5.bytes_of rest) lead
  end.

(** The code points from U+0080 on that [str.isprintable] refuses, as
    closed ranges: the general categories Cc, Cf, Cs, Co, Cn, Zl, Zp and Zs
    of Unicode 14.0, the tables of CPython 3.11. *)
Definition nonprintable_ranges : list (Z * Z) :=
  [
    (0x80, 0xa0); (0xad, 0xad); (0x378, 0x379); (0x380, 0x383); (0x38b, 0x38b);
    (0x38d, 0x38d); (0x3a2, 0x3a2); (0x530, 0x530); (0x557, 0x558); (0x58b, 0x58c);
    (0x590, 0x590); (0x5c8, 0x5cf); (0x5eb, 0x5ee); (0x5f5, 0x605); (0x61c, 0x61c);
    (0x6dd, 0x6dd); (0x70e, 0x70f); (0x74b, 0x74c); (0x7b2, 0x7bf); (0x7fb, 0x7fc);
    (0x82e, 0x82f); (0x83f, 0x83f); (0x85c, 0x85d); (0x85f, 0x85f); (0x86b, 0x86f);
    (0x88f, 0x897); (0x8e2, 0x8e2); (0x984, 0x984); (0x98d, 0x98e); (0x991, 0x992);
    (0x9a9, 0x9a9); (0x9b1, 0x9b1); (0x9b3, 0x9b5); (0x9ba, 0x9bb); (0x9c5, 0x9c6);
    (0x9c9, 0x9ca); (0x9cf, 0x9d6); (0x9d8, 0x9db); (0x9de, 0x9de); (0x9e4, 0x9e5);
    (0x9ff, 0xa00); (0xa04, 0xa04); (0xa0b, 0xa0e); (0xa11, 0xa12); (0xa29, 0xa29);
    (0xa31, 0xa31); (0xa34, 0xa34); (0xa37, 0xa37); (0xa3a, 0xa3b); (0xa3d, 0xa3d);
    (0xa43, 0xa46); (0xa49, 0xa4a); (0xa4e, 0xa50); (0xa52, 0xa58); (0xa5d, 0xa5d);
    (0xa5f, 0xa65); (0xa77, 0xa80); (0xa84, 0xa84); (0xa8e, 0xa8e); (0xa92, 0xa92);
    (0xaa9, 0xaa9); (0xab1, 0xab1); (0xab4, 0xab4); (0xaba, 0xabb); (0xac6, 0xac6);
    (0xaca, 0xaca); (0xace, 0xacf); (0xad1, 0xadf); (0xae4, 0xae5); (0xaf2, 0xaf8);
    (0xb00, 0xb00); (0xb04, 0xb04); (0xb0d, 0xb0e); (0xb11, 0xb12); (0xb29, 0xb29);
    (0xb31, 0xb31); (0xb34, 0xb34); (0xb3a, 0xb3b); (0xb45, 0xb46); (0xb49, 0xb4a);
    (0xb4e, 0xb54); (0xb58, 0xb5b); (0xb5e, 0xb5e); (0xb64, 0xb65); (0xb78, 0xb81);
    (0xb84, 0xb84); (0xb8b, 0xb8d); (0xb91, 0xb91); (0xb96, 0xb98); (0xb9b, 0xb9b);
    (0xb9d, 0xb9d); (0xba0, 0xba2); (0xba5, 0xba7); (0xbab, 0xbad); (0xbba, 0xbbd);
    (0xbc3, 0xbc5); (0xbc9, 0xbc9); (0xbce, 0xbcf); (0xbd1, 0xbd6); (0xbd8, 0xbe5);
    (0xbfb, 0xbff); (0xc0d, 0xc0d); (0xc11, 0xc11); (0xc29, 0xc29); (0xc3a, 0xc3b);
    (0xc45, 0xc45); (0xc49, 0xc49); (0xc4e, 0xc54); (0xc57, 0xc57); (0xc5b, 0xc5c);
    (0xc5e, 0xc5f); (0xc64, 0xc65); (0xc70, 0xc76); (0xc8d, 0xc8d); (0xc91, 0xc91);
    (0xca9, 0xca9); (0xcb4, 0xcb4); (0xcba, 0xcbb); (0xcc5, 0xcc5); (0xcc9, 0xcc9);
    (0xcce, 0xcd4); (0xcd7, 0xcdc); (0xcdf, 0xcdf); (0xce4, 0xce5); (0xcf0, 0xcf0);
    (0xcf3, 0xcff); (0xd0d, 0xd0d); (0xd11, 0xd11); (0xd45, 0xd45); (0xd49, 0xd49);
    (0xd50, 0xd53); (0xd64, 0xd65); (0xd80, 0xd80); (0xd84, 0xd84); (0xd97, 0xd99);
    (0xdb2, 0xdb2); (0xdbc, 0xdbc); (0xdbe, 0xdbf); (0xdc7, 0xdc9); (0xdcb, 0xdce);
    (0xdd5, 0xdd5); (0xdd7, 0xdd7); (0xde0, 0xde5); (0xdf0, 0xdf1); (0xdf5, 0xe00);
    (0xe3b, 0xe3e); (0xe5c, 0xe80); (0xe83, 0xe83); (0xe85, 0xe85); (0xe8b, 0xe8b);
    (0xea4, 0xea4); (0xea6, 0xea6); (0xebe, 0xebf); (0xec5, 0xec5); (0xec7, 0xec7);
    (0xece, 0xecf); (0xeda, 0xedb); (0xee0, 0xeff); (0xf48, 0xf48); (0xf6d, 0xf70);
    (0xf98, 0xf98); (0xfbd, 0xfbd); (0xfcd, 0xfcd); (0xfdb, 0xfff); (0x10c6, 0x10c6);
    (0x10c8, 0x10cc); (0x10ce, 0x10cf); (0x1249, 0x1249); (0x124e, 0x124f); (0x1257, 0x1257);
    (0x1259, 0x1259); (0x125e, 0x125f); (0x1289, 0x1289); (0x128e, 0x128f); (0x12b1, 0x12b1);
    (0x12b6, 0x12b7); (0x12bf, 0x12bf); (0x12c1, 0x12c1); (0x12c6, 0x12c7); (0x12d7, 0x12d7);
    (0x1311, 0x1311); (0x1316, 0x1317); (0x135b, 0x135c); (0x137d, 0x137f); (0x139a, 0x139f);
    (0x13f6, 0x13f7); (0x13fe, 0x13ff); (0x1680, 0x1680); (0x169d, 0x169f); (0x16f9, 0x16ff);
    (0x1716, 0x171e); (0x1737, 0x173f); (0x1754, 0x175f); (0x176d, 0x176d); (0x1771, 0x1771);
    (0x1774, 0x177f); (0x17de, 0x17df); (0x17ea, 0x17ef); (0x17fa, 0x17ff); (0x180e, 0x180e);
    (0x181a, 0x181f); (0x1879, 0x187f); (0x18ab, 0x18af); (0x18f6, 0x18ff); (0x191f, 0x191f);
    (0x192c, 0x192f); (0x193c, 0x193f); (0x1941, 0x1943); (0x196e, 0x196f); (0x1975, 0x197f);
    (0x19ac, 0x19af); (0x19ca, 0x19cf); (0x19db, 0x19dd); (0x1a1c, 0x1a1d); (0x1a5f, 0x1a5f);
    (0x1a7d, 0x1a7e); (0x1a8a, 0x1a8f); (0x1a9a, 0x1a9f); (0x1aae, 0x1aaf); (0x1acf, 0x1aff);
    (0x1b4d, 0x1b4f); (0x1b7f, 0x1b7f); (0x1bf4, 0x1bfb); (0x1c38, 0x1c3a); (0x1c4a, 0x1c4c);
    (0x1c89, 0x1c8f); (0x1cbb, 0x1cbc); (0x1cc8, 0x1ccf); (0x1cfb, 0x1cff); (0x1f16, 0x1f17);
    (0x1f1e, 0x1f1f); (0x1f46, 0x1f47); (0x1f4e, 0x1f4f); (0x1f58, 0x1f58); (0x1f5a, 0x1f5a);
    (0x1f5c, 0x1f5c); (0x1f5e, 0x1f5e); (0x1f7e, 0x1f7f); (0x1fb5, 0x1fb5); (0x1fc5, 0x1fc5);
    (0x1fd4, 0x1fd5); (0x1fdc, 0x1fdc); (0x1ff0, 0x1ff1); (0x1ff5, 0x1ff5); (0x1fff, 0x200f);
    (0x2028, 0x202f); (0x205f, 0x206f); (0x2072, 0x2073); (0x208f, 0x208f); (0x209d, 0x209f);
    (0x20c1, 0x20cf); (0x20f1, 0x20ff); (0x218c, 0x218f); (0x2427, 0x243f); (0x244b, 0x245f);
    (0x2b74, 0x2b75); (0x2b96, 0x2b96); (0x2cf4, 0x2cf8); (0x2d26, 0x2d26); (0x2d28, 0x2d2c);
    (0x2d2e, 0x2d2f); (0x2d68, 0x2d6e); (0x2d71, 0x2d7e); (0x2d97, 0x2d9f); (0x2da7, 0x2da7);
    (0x2daf, 0x2daf); (0x2db7, 0x2db7); (0x2dbf, 0x2dbf); (0x2dc7, 0x2dc7); (0x2dcf, 0x2dcf);
    (0x2dd7, 0x2dd7); (0x2ddf, 0x2ddf); (0x2e5e, 0x2e7f); (0x2e9a, 0x2e9a); (0x2ef4, 0x2eff);
    (0x2fd6, 0x2fef); (0x2ffc, 0x3000); (0x3040, 0x3040); (0x3097, 0x3098); (0x3100, 0x3104);
    (0x3130, 0x3130); (0x318f, 0x318f); (0x31e4, 0x31ef); (0x321f, 0x321f); (0xa48d, 0xa48f);
    (0xa4c7, 0xa4cf); (0xa62c, 0xa63f); (0xa6f8, 0xa6ff); (0xa7cb, 0xa7cf); (0xa7d2, 0xa7d2);
    (0xa7d4, 0xa7d4); (0xa7da, 0xa7f1); (0xa82d, 0xa82f); (0xa83a, 0xa83f); (0xa878, 0xa87f);
    (0xa8c6, 0xa8cd); (0xa8da, 0xa8df); (0xa954, 0xa95e); (0xa97d, 0xa97f); (0xa9ce, 0xa9ce);
    (0xa9da, 0xa9dd); (0xa9ff, 0xa9ff); (0xaa37, 0xaa3f); (0xaa4e, 0xaa4f); (0xaa5a, 0xaa5b);
    (0xaac3, 0xaada); (0xaaf7, 0xab00); (0xab07, 0xab08); (0xab0f, 0xab10); (0xab17, 0xab1f);
    (0xab27, 0xab27); (0xab2f, 0xab2f); (0xab6c, 0xab6f); (0xabee, 0xabef); (0xabfa, 0xabff);
    (0xd7a4, 0xd7af); (0xd7c7, 0xd7ca); (0xd7fc, 0xf8ff); (0xfa6e, 0xfa6f); (0xfada, 0xfaff);
    (0xfb07, 0xfb12); (0xfb18, 0xfb1c); (0xfb37, 0xfb37); (0xfb3d, 0xfb3d); (0xfb3f, 0xfb3f);
    (0xfb42, 0xfb42); (0xfb45, 0xfb45); (0xfbc3, 0xfbd2); (0xfd90, 0xfd91); (0xfdc8, 0xfdce);
    (0xfdd0, 0xfdef); (0xfe1a, 0xfe1f); (0xfe53, 0xfe53); (0xfe67, 0xfe67); (0xfe6c, 0xfe6f);
    (0xfe75, 0xfe75); (0xfefd, 0xff00); (0xffbf, 0xffc1); (0xffc8, 0xffc9); (0xffd0, 0xffd1);
    (0xffd8, 0xffd9); (0xffdd, 0xffdf); (0xffe7, 0xffe7); (0xffef, 0xfffb); (0xfffe, 0xffff);
    (0x1000c, 0x1000c); (0x10027, 0x10027); (0x1003b, 0x1003b); (0x1003e, 0x1003e); (0x1004e, 0x1004f);
    (0x1005e, 0x1007f); (0x100fb, 0x100ff); (0x10103, 0x10106); (0x10134, 0x10136); (0x1018f, 0x1018f);
    (0x1019d, 0x1019f); (0x101a1, 0x101cf); (0x101fe, 0x1027f); (0x1029d, 0x1029f); (0x102d1, 0x102df);
    (0x102fc, 0x102ff); (0x10324, 0x1032c); (0x1034b, 0x1034f); (0x1037b, 0x1037f); (0x1039e, 0x1039e);
    (0x103c4, 0x103c7); (0x103d6, 0x103ff); (0x1049e, 0x1049f); (0x104aa, 0x104af); (0x104d4, 0x104d7);
    (0x104fc, 0x104ff); (0x10528, 0x1052f); (0x10564, 0x1056e); (0x1057b, 0x1057b); (0x1058b, 0x1058b);
    (0x10593, 0x10593); (0x10596, 0x10596); (0x105a2, 0x105a2); (0x105b2, 0x105b2); (0x105ba, 0x105ba);
    (0x105bd, 0x105ff); (0x10737, 0x1073f); (0x10756, 0x1075f); (0x10768, 0x1077f); (0x10786, 0x10786);
    (0x107b1, 0x107b1); (0x107bb, 0x107ff); (0x10806, 0x10807); (0x10809, 0x10809); (0x10836, 0x10836);
    (0x10839, 0x1083b); (0x1083d, 0x1083e); (0x10856, 0x10856); (0x1089f, 0x108a6); (0x108b0, 0x108df);
    (0x108f3, 0x108f3); (0x108f6, 0x108fa); (0x1091c, 0x1091e); (0x1093a, 0x1093e); (0x10940, 0x1097f);
    (0x109b8, 0x109bb); (0x109d0, 0x109d1); (0x10a04, 0x10a04); (0x10a07, 0x10a0b); (0x10a14, 0x10a14);
    (0x10a18, 0x10a18); (0x10a36, 0x10a37); (0x10a3b, 0x10a3e); (0x10a49, 0x10a4f); (0x10a59, 0x10a5f);
    (0x10aa0, 0x10abf); (0x10ae7, 0x10aea); (0x10af7, 0x10aff); (0x10b36, 0x10b38); (0x10b56, 0x10b57);
    (0x10b73, 0x10b77); (0x10b92, 0x10b98); (0x10b9d, 0x10ba8); (0x10bb0, 0x10bff); (0x10c49, 0x10c7f);
    (0x10cb3, 0x10cbf); (0x10cf3, 0x10cf9); (0x10d28, 0x10d2f); (0x10d3a, 0x10e5f); (0x10e7f, 0x10e7f);
    (0x10eaa, 0x10eaa); (0x10eae, 0x10eaf); (0x10eb2, 0x10eff); (0x10f28, 0x10f2f); (0x10f5a, 0x10f6f);
    (0x10f8a, 0x10faf); (0x10fcc, 0x10fdf); (0x10ff7, 0x10fff); (0x1104e, 0x11051); (0x11076, 0x1107e);
    (0x110bd, 0x110bd); (0x110c3, 0x110cf); (0x110e9, 0x110ef); (0x110fa, 0x110ff); (0x11135, 0x11135);
    (0x11148, 0x1114f); (0x11177, 0x1117f); (0x111e0, 0x111e0); (0x111f5, 0x111ff); (0x11212, 0x11212);
    (0x1123f, 0x1127f); (0x11287, 0x11287); (0x11289, 0x11289); (0x1128e, 0x1128e); (0x1129e, 0x1129e);
    (0x112aa, 0x112af); (0x112eb, 0x112ef); (0x112fa, 0x112ff); (0x11304, 0x11304); (0x1130d, 0x1130e);
    (0x11311, 0x11312); (0x11329, 0x11329); (0x11331, 0x11331); (0x11334, 0x11334); (0x1133a, 0x1133a);
    (0x11345, 0x11346); (0x11349, 0x1134a); (0x1134e, 0x1134f); (0x11351, 0x11356); (0x11358, 0x1135c);
    (0x11364, 0x11365); (0x1136d, 0x1136f); (0x11375, 0x113ff); (0x1145c, 0x1145c); (0x11462, 0x1147f);
    (0x114c8, 0x114cf); (0x114da, 0x1157f); (0x115b6, 0x115b7); (0x115de, 0x115ff); (0x11645, 0x1164f);
    (0x1165a, 0x1165f); (0x1166d, 0x1167f); (0x116ba, 0x116bf); (0x116ca, 0x116ff); (0x1171b, 0x1171c);
    (0x1172c, 0x1172f); (0x11747, 0x117ff); (0x1183c, 0x1189f); (0x118f3, 0x118fe); (0x11907, 0x11908);
    (0x1190a, 0x1190b); (0x11914, 0x11914); (0x11917, 0x11917); (0x11936, 0x11936); (0x11939, 0x1193a);
    (0x11947, 0x1194f); (0x1195a, 0x1199f); (0x119a8, 0x119a9); (0x119d8, 0x119d9); (0x119e5, 0x119ff);
    (0x11a48, 0x11a4f); (0x11aa3, 0x11aaf); (0x11af9, 0x11bff); (0x11c09, 0x11c09); (0x11c37, 0x11c37);
    (0x11c46, 0x11c4f); (0x11c6d, 0x11c6f); (0x11c90, 0x11c91); (0x11ca8, 0x11ca8); (0x11cb7, 0x11cff);
    (0x11d07, 0x11d07); (0x11d0a, 0x11d0a); (0x11d37, 0x11d39); (0x11d3b, 0x11d3b); (0x11d3e, 0x11d3e);
    (0x11d48, 0x11d4f); (0x11d5a, 0x11d5f); (0x11d66, 0x11d66); (0x11d69, 0x11d69); (0x11d8f, 0x11d8f);
    (0x11d92, 0x11d92); (0x11d99, 0x11d9f); (0x11daa, 0x11edf); (0x11ef9, 0x11faf); (0x11fb1, 0x11fbf);
    (0x11ff2, 0x11ffe); (0x1239a, 0x123ff); (0x1246f, 0x1246f); (0x12475, 0x1247f); (0x12544, 0x12f8f);
    (0x12ff3, 0x12fff); (0x1342f, 0x143ff); (0x14647, 0x167ff); (0x16a39, 0x16a3f); (0x16a5f, 0x16a5f);
    (0x16a6a, 0x16a6d); (0x16abf, 0x16abf); (0x16aca, 0x16acf); (0x16aee, 0x16aef); (0x16af6, 0x16aff);
    (0x16b46, 0x16b4f); (0x16b5a, 0x16b5a); (0x16b62, 0x16b62); (0x16b78, 0x16b7c); (0x16b90, 0x16e3f);
    (0x16e9b, 0x16eff); (0x16f4b, 0x16f4e); (0x16f88, 0x16f8e); (0x16fa0, 0x16fdf); (0x16fe5, 0x16fef);
    (0x16ff2, 0x16fff); (0x187f8, 0x187ff); (0x18cd6, 0x18cff); (0x18d09, 0x1afef); (0x1aff4, 0x1aff4);
    (0x1affc, 0x1affc); (0x1afff, 0x1afff); (0x1b123, 0x1b14f); (0x1b153, 0x1b163); (0x1b168, 0x1b16f);
    (0x1b2fc, 0x1bbff); (0x1bc6b, 0x1bc6f); (0x1bc7d, 0x1bc7f); (0x1bc89, 0x1bc8f); (0x1bc9a, 0x1bc9b);
    (0x1bca0, 0x1ceff); (0x1cf2e, 0x1cf2f); (0x1cf47, 0x1cf4f); (0x1cfc4, 0x1cfff); (0x1d0f6, 0x1d0ff);
    (0x1d127, 0x1d128); (0x1d173, 0x1d17a); (0x1d1eb, 0x1d1ff); (0x1d246, 0x1d2df); (0x1d2f4, 0x1d2ff);
    (0x1d357, 0x1d35f); (0x1d379, 0x1d3ff); (0x1d455, 0x1d455); (0x1d49d, 0x1d49d); (0x1d4a0, 0x1d4a1);
    (0x1d4a3, 0x1d4a4); (0x1d4a7, 0x1d4a8); (0x1d4ad, 0x1d4ad); (0x1d4ba, 0x1d4ba); (0x1d4bc, 0x1d4bc);
    (0x1d4c4, 0x1d4c4); (0x1d506, 0x1d506); (0x1d50b, 0x1d50c); (0x1d515, 0x1d515); (0x1d51d, 0x1d51d);
    (0x1d53a, 0x1d53a); (0x1d53f, 0x1d53f); (0x1d545, 0x1d545); (0x1d547, 0x1d549); (0x1d551, 0x1d551);
    (0x1d6a6, 0x1d6a7); (0x1d7cc, 0x1d7cd); (0x1da8c, 0x1da9a); (0x1daa0, 0x1daa0); (0x1dab0, 0x1deff);
    (0x1df1f, 0x1dfff); (0x1e007, 0x1e007); (0x1e019, 0x1e01a); (0x1e022, 0x1e022); (0x1e025, 0x1e025);
    (0x1e02b, 0x1e0ff); (0x1e12d, 0x1e12f); (0x1e13e, 0x1e13f); (0x1e14a, 0x1e14d); (0x1e150, 0x1e28f);
    (0x1e2af, 0x1e2bf); (0x1e2fa, 0x1e2fe); (0x1e300, 0x1e7df); (0x1e7e7, 0x1e7e7); (0x1e7ec, 0x1e7ec);
    (0x1e7ef, 0x1e7ef); (0x1e7ff, 0x1e7ff); (0x1e8c5, 0x1e8c6); (0x1e8d7, 0x1e8ff); (0x1e94c, 0x1e94f);
    (0x1e95a, 0x1e95d); (0x1e960, 0x1ec70); (0x1ecb5, 0x1ed00); (0x1ed3e, 0x1edff); (0x1ee04, 0x1ee04);
    (0x1ee20, 0x1ee20); (0x1ee23, 0x1ee23); (0x1ee25, 0x1ee26); (0x1ee28, 0x1ee28); (0x1ee33, 0x1ee33);
    (0x1ee38, 0x1ee38); (0x1ee3a, 0x1ee3a); (0x1ee3c, 0x1ee41); (0x1ee43, 0x1ee46); (0x1ee48, 0x1ee48);
    (0x1ee4a, 0x1ee4a); (0x1ee4c, 0x1ee4c); (0x1ee50, 0x1ee50); (0x1ee53, 0x1ee53); (0x1ee55, 0x1ee56);
    (0x1ee58, 0x1ee58); (0x1ee5a, 0x1ee5a); (0x1ee5c, 0x1ee5c); (0x1ee5e, 0x1ee5e); (0x1ee60, 0x1ee60);
    (0x1ee63, 0x1ee63); (0x1ee65, 0x1ee66); (0x1ee6b, 0x1ee6b); (0x1ee73, 0x1ee73); (0x1ee78, 0x1ee78);
    (0x1ee7d, 0x1ee7d); (0x1ee7f, 0x1ee7f); (0x1ee8a, 0x1ee8a); (0x1ee9c, 0x1eea0); (0x1eea4, 0x1eea4);
    (0x1eeaa, 0x1eeaa); (0x1eebc, 0x1eeef); (0x1eef2, 0x1efff); (0x1f02c, 0x1f02f); (0x1f094, 0x1f09f);
    (0x1f0af, 0x1f0b0); (0x1f0c0, 0x1f0c0); (0x1f0d0, 0x1f0d0); (0x1f0f6, 0x1f0ff); (0x1f1ae, 0x1f1e5);
    (0x1f203, 0x1f20f); (0x1f23c, 0x1f23f); (0x1f249, 0x1f24f); (0x1f252, 0x1f25f); (0x1f266, 0x1f2ff);
    (0x1f6d8, 0x1f6dc); (0x1f6ed, 0x1f6ef); (0x1f6fd, 0x1f6ff); (0x1f774, 0x1f77f); (0x1f7d9, 0x1f7df);
    (0x1f7ec, 0x1f7ef); (0x1f7f1, 0x1f7ff); (0x1f80c, 0x1f80f); (0x1f848, 0x1f84f); (0x1f85a, 0x1f85f);
    (0x1f888, 0x1f88f); (0x1f8ae, 0x1f8af); (0x1f8b2, 0x1f8ff); (0x1fa54, 0x1fa5f); (0x1fa6e, 0x1fa6f);
    (0x1fa75, 0x1fa77); (0x1fa7d, 0x1fa7f); (0x1fa87, 0x1fa8f); (0x1faad, 0x1faaf); (0x1fabb, 0x1fabf);
    (0x1fac6, 0x1facf); (0x1fada, 0x1fadf); (0x1fae8, 0x1faef); (0x1faf7, 0x1faff); (0x1fb93, 0x1fb93);
    (0x1fbcb, 0x1fbef); (0x1fbfa, 0x1ffff); (0x2a6e0, 0x2a6ff); (0x2b739, 0x2b73f); (0x2b81e, 0x2b81f);
    (0x2cea2, 0x2ceaf); (0x2ebe1, 0x2f7ff); (0x2fa1e, 0x2ffff); (0x3134b, 0xe00ff); (0xe01f0, 0x10ffff)
  ].

(** [chr(cp).isprintable()] *)
Definition isprintable (cp : Z) : bool :=
  if cp <? 128 then (32 <=? cp) && (cp <? 127)
  else negb (existsb (fun r => (fst r <=? cp) && (cp <=? snd r)) nonprintable_ranges).

(** One character of a [str] inside [quote]s: the quote and the backslash
    take a backslash, tab, newline and return their letter, any other
    character that is not printable its code point in hexadecimal, on two,
    four or eight digits. *)
Definition repr_char (quote : ascii) (ch : string) : string :=
  let cp := code_point ch in
  if String.eqb ch (String quote "") || String.eqb ch "\" then "\" +:+ ch
  else if cp =? 9 then "\t"
  else if cp =? 10 then "\n"
  else if cp =? 13 then "\r"
  else if isprintable cp then ch
  else if cp <? 256 then "\x" +:+ hex_fixed 2 cp
  else if cp <? 65536 then "\u" +:+ hex_fixed 4 cp
  else "\U" +:+ hex_fixed 8 cp.

Definition repr_chars (quote : ascii) (s : string) : string :=
  fold_right (fun ch acc => repr_char quote ch +:+ acc) "" (chars s).

(** [repr(s)]: single quotes, unless [s] has a single quote and no double
    quote. *)
Definition repr_str (s : string) : string :=
  let quote : ascii :=
    if contains "'" s && negb (contains (String (ascii_of_nat 34) "") s)
    then ascii_of_nat 34 else "'"%char in
  String quote (repr_chars quote s) +:+ String quote "".

(** [repr(v)]. *)
Fixpoint repr (v : json) : string :=
  match v with
  | JNull => "None"
  | JBool true => "True"
  | JBool false => "False"
  | JInt n => str_of_int n
  | JFloat r => r
  | JStr s => repr_str s
  | JArr items =>
      "[" +:+ (fix go (l : list json) : string :=
                 match l with
                 | [] => ""
                 | [x] => repr x
                 | x :: rest => repr x +:+ ", " +:+ go rest
                 end) items +:+ "]"
  | JObj fields =>
      "{" +:+ (fix go (l : list (string * json)) : string :=
                 match l with
                 | [] => ""
                 | [(k, x)] => repr_str k +:+ ": " +:+ repr x
                 | (k, x) :: rest => repr_str k +:+ ": " +:+ repr x +:+ ", " +:+ go rest
                 end) fields +:+ "}"
  end.

(** [str(v)], which an f-string applies to [{v}]. *)
Definition str (v : json) : string :=
  match v with
  | JStr s => s
  | _ => repr v
  end.

(** [f"{x}"] for a value read by [os.environ.get]. *)
Definition str_of_env (x : option string) : string :=
  match x with
  | Some s => s
  | None => "None"
  end.

Definition json_of_env (x : option string) : json :=
  match x with
  | Some s => JStr s
  | None => JNull
  end.

(** *** [datetime] *)

Record datetime := Datetime {
  year : Z; month : Z; day : Z; hour : Z; minute : Z; second : Z
}.

(** A field on two digits. *)
Definition pad2 (n : Z) : string :=
  if n <? 10 then "0" +:+ str_of_int n else str_of_int n.

(** One directive of [strftime]; [%Y] is the year in decimal, four digits
    for the years 1000 to 9999. An unknown directive is left as it is. *)
Definition directive (c : ascii) (t : datetime) : string :=
  match c with
  | "Y"%char => str_of_int (year t)
  | "m"%char => pad2 (month t)
  | "d"%char => pad2 (day t)
  | "H"%char => pad2 (hour t)
  | "M"%char => pad2 (minute t)
  | "S"%char => pad2 (second t)
  | "%"%char => "%"
  | _ => String "%" (String c "")
  end.

Fixpoint strftime (fmt : string) (t : datetime) : string :=
  match fmt with
  | EmptyString => ""
  | String "%" (String c rest) => directive c t +:+ strftime rest t
  | String c rest => String c (strftime rest t)
  end.

(** [sep.join(l)]. *)
Fixpoint join (sep : string) (l : list string) : string :=
  match l with
  | [] => ""
  | [x] => x
  | x :: rest => x +:+ sep +:+ join sep rest
  end.

(** *** Paths *)

(** [s] without the prefix [p], when it starts with it. *)
Fixpoint strip_prefix (p s : string) : option string :=
  match p with
  | EmptyString => Some s
  | String a p' =>
      match s with
      | String b s' => if Ascii.eqb a b then strip_prefix p' s' else None
      | EmptyString => None
      end
  end.

(** No byte of [s] is the separator [/] or NUL. *)
Fixpoint no_separator (s : string) : bool :=
  match s with
  | EmptyString => true
  | String c rest =>
      negb (Ascii.eqb c "/") && negb (Ascii.eqb c zero) && no_separator rest
  end.

(** A name that is one component of a path and names an entry of its
    directory: not empty, neither [.] nor [..], without separator. *)
Definition plain_name (name : string) : bool :=
  negb (String.eqb name "") && negb (String.eqb name ".")
  && negb (String.eqb name "..") && no_separator name.

End Py.

(** ** The outside world *)

(** A call that leaves the process, or touches the disk. *)
Inductive event : Type :=
| EvPost (url : string) (payload headers : json)
| EvGet (url : string) (timeout : Z)
| EvWrite (path : string) (data : string)
| EvUpload (body : json) (path : string) (data : string) (mimetype fields : string)
| EvRemove (path : string).

Record response := Response { status_code : Z; content : string }.

(** What the run meets outside. Each call of a library is answered with a
    value or an exception. *)
Record world := World {
  (** [os.environ.get] *)
  environ : string -> option string;
  (** [int(time.time() * 1000)] at the n-th reading of the clock *)
  clock_ms : nat -> Z;
  (** [datetime.now()] *)
  now : Py.datetime;
  (** [requests.post(url, json=payload, headers=headers).json()] *)
  post_json : string -> json -> json -> outcome json;
  (** [requests.get(url, timeout=t)] *)
  get_url : string -> Z -> outcome response;
  (** [json.loads] *)
  json_loads : option string -> outcome json;
  (** [service_account.Credentials.from_service_account_info(info, scopes=...)] *)
  from_service_account_info : json -> list string -> outcome unit;
  (** [build(name, version, credentials=...)] *)
  build : string -> string -> outcome unit;
  (** [service.files().create(body=, media_body=, fields=).execute()], with
      the bytes of the media file *)
  files_create : json -> string -> string -> string -> outcome json;
  (** the file a path names when it is opened or removed, given by the
      path that identifies it, or the [OSError] raised instead; asked for
      every path but that of a plain name directly under [/tmp] *)
  path_file : string -> outcome string
}.

(** What the run has done so far: the files on disk, each under the path
    that identifies it, how often the clock was read, the calls made, oldest
    first. *)
Record state := State {
  files : gmap string string;
  clock_reads : nat;
  calls : list event
}.

(** A piece of the program: from the state before to what it comes to and
    the state after. *)
Definition M (A : Type) : Type := state -> outcome A * state.

#[export] Instance M_ret : MRet M := fun A a s => (Return a, s).
#[export] Instance M_bind : MBind M := fun A B f m s =>
  match m s with
  | (Return a, s') => f a s'
  | (Raise e, s') => (Raise e, s')
  end.

(** An expression that touches nothing. *)
Definition lift {A : Type} (o : outcome A) : M A := fun s => (o, s).

Definition raise {A : Type} (e : exn) : M A := lift (Raise e).

(** [try: body / except Exception as e: handler(e)]. *)
Definition try_except {A : Type} (body : M A) (handler : exn -> M A) : M A :=
  fun s =>
    match body s with
    | (Return a, s') => (Return a, s')
    | (Raise e, s') => handler e s'
    end.

Definition record (ev : event) : M unit :=
  fun s => (Return tt, State (files s) (clock_reads s) (calls s ++ [ev])).

Section Calls.

Variable w : world.

(** [int(time.time() * 1000)] *)
Definition time_ms_now : M Z :=
  fun s => (Return (clock_ms w (clock_reads s)),
            State (files s) (S (clock_reads s)) (calls s)).

(** [requests.post(url, json=payload, headers=headers)] followed by
    [response.json()]. *)
Definition requests_post (url : string) (payload headers : json) : M json :=
  _ ← record (EvPost url payload headers);
  lift (post_json w url payload headers).

(** [requests.get(url, timeout=timeout)]; the library takes [str(url)]. *)
Definition requests_get (url : json) (timeout : Z) : M response :=
  _ ← record (EvGet (Py.str url) timeout);
  lift (get_url w (Py.str url) timeout).

(** [response.raise_for_status()]: the client errors 4xx and the server
    errors 5xx raise. *)
Definition raise_for_status (r : response) : outcome unit :=
  if (400 <=? status_code r) && (status_code r <? 600)
  then Raise (HTTPError (status_code r))
  else Return tt.

(** The file that [path] names. [/tmp] is a directory that can be written
    to, so a plain name under it names the entry of that name; what any
    other path names (one through a missing directory, [/tmp/] itself, an
    alias such as [/tmp/./x]) is for the world to say. *)
Definition file_at (path : string) : outcome string :=
  match Py.strip_prefix "/tmp/" path with
  | Some name => if Py.plain_name name then Return path else path_file w path
  | None => path_file w path
  end.

(** [with open(path, 'wb') as f: f.write(data)] *)
Definition write_file (path data : string) : M unit :=
  fun s =>
    match file_at path with
    | Return file =>
        (Return tt,
         State (<[file := data]> (files s)) (clock_reads s)
               (calls s ++ [EvWrite path data]))
    | Raise e => (Raise e, s)
    end.

(** [MediaFileUpload(path, mimetype=...)] opens the file, whose bytes are
    what the upload sends. *)
Definition media_file_upload (path : string) : M string :=
  fun s =>
    match file_at path with
    | Return file =>
        match files s !! file with
        | Some data => (Return data, s)
        | None => (Raise (FileNotFoundError path), s)
        end
    | Raise e => (Raise e, s)
    end.

(** [service.files().create(...).execute()] *)
Definition files_create_execute (body : json) (path data mimetype fields : string)
  : M json :=
  _ ← record (EvUpload body path data mimetype fields);
  lift (files_create w body data mimetype fields).

(** [os.remove(path)] *)
Definition os_remove (path : string) : M unit :=
  fun s =>
    match file_at path with
    | Return file =>
        match files s !! file with
        | Some _ => (Return tt,
                     State (delete file (files s)) (clock_reads s)
                           (calls s ++ [EvRemove path]))
        | None => (Raise (FileNotFoundError path), s)
        end
    | Raise e => (Raise e, s)
    end.

End Calls.

(** ** timelapse.py *)

Section Timelapse.

Variable w : world.

Definition IMOU_APP_ID : option string := environ w "IMOU_APP_ID".
Definition IMOU_APP_SECRET : option string := environ w "IMOU_APP_SECRET".
Definition IMOU_DEVICE_ID : option string := environ w "IMOU_DEVICE_ID".
Definition IMOU_API_URL : string := "https://openapi.easy4ip.com/openapi".

Definition GOOGLE_DRIVE_FOLDER_ID : option string := environ w "GOOGLE_DRIVE_FOLDER_ID".
Definition GOOGLE_CREDENTIALS_JSON : option string := environ w "GOOGLE_CREDENTIALS_JSON".

Definition headers : json := JObj [("Content-Type", JStr "application/json")].

(** The body of the token request, lines 28 to 47, for the timestamp
    [time_ms]. *)
Definition token_payload (time_ms : string) : json :=
  let system_params :=
    [("ver", JStr "1.0");
     ("sign", JStr "");
     ("appId", Py.json_of_env IMOU_APP_ID);
     ("time", JStr time_ms)] in
  let nonce := time_ms in
  let sign_string := time_ms +:+ nonce +:+ Py.str_of_env IMOU_APP_SECRET in
  let signature := MD5.hexdigest sign_string in
  let system_params := Py.assign "sign" (JStr signature) system_params in
  JObj [("system", JObj system_params); ("params", JObj [])].

(** Line 59: does the decoded response report success? *)
Definition token_code_ok (data : json) : outcome bool :=
  code ← Py.get data "code" JNull;
  if Py.eq_str code "0" then Return true
  else
    result ← Py.get data "result" (JObj []);
    rcode ← Py.get result "code" JNull;
    Return (Py.eq_str rcode "0").

(** Lines 61 to 66: the token of a response that reports success. *)
Definition token_in (data : json) : outcome json :=
  nested ← (has_result ← Py.contains_key "result" data;
            if has_result : bool then
              result ← Py.getitem data "result";
              Py.contains_key "accessToken" result
            else Return false);
  if nested : bool then
    result ← Py.getitem data "result";
    Py.getitem result "accessToken"
  else
    flat ← Py.contains_key "accessToken" data;
    if flat : bool then Py.getitem data "accessToken"
    else Raise (Exception ("Token nebyl nalezen v odpovědi: " +:+ Py.str data)).

Definition get_imou_access_token : M json :=
  let url := IMOU_API_URL +:+ "/accessToken" in
  t ← time_ms_now w;
  let time_ms := Py.str_of_int t in
  let payload := token_payload time_ms in
  data ← requests_post w url payload headers;
  ok ← lift (token_code_ok data);
  if ok : bool then lift (token_in data)
  else raise (Exception ("Chyba při získávání tokenu: " +:+ Py.str data)).

(** The body of the snapshot request, lines 76 to 90. *)
Definition snapshot_payload (time_ms : string) (access_token : json) : json :=
  let system_params :=
    [("ver", JStr "1.0");
     ("appId", Py.json_of_env IMOU_APP_ID);
     ("time", JStr time_ms);
     ("sign", JStr (MD5.hexdigest
                      (time_ms +:+ time_ms +:+ Py.str_of_env IMOU_APP_SECRET)))] in
  JObj [("system", JObj system_params);
        ("params", JObj [("token", access_token);
                         ("deviceId", Py.json_of_env IMOU_DEVICE_ID);
                         ("channelId", JStr "0")])].

(** Line 103: does the decoded response report success? *)
Definition snapshot_code_ok (data : json) : outcome bool :=
  code ← Py.get data "code" JNull;
  if Py.eq_str code "0" then Return true
  else
    result ← Py.get data "result" JNull;
    if Py.truthy result then
      result ← Py.getitem data "result";
      rcode ← Py.get result "code" JNull;
      Return (Py.eq_str rcode "0")
    else Return false.

(** Lines 105 to 112: the address of the image in a response that reports
    success. *)
Definition image_url_in (data : json) : outcome json :=
  result ← Py.get data "result" data;
  has_url ← Py.contains_key "url" result;
  if has_url : bool then Py.getitem result "url"
  else
    listed ← (has_snapshots ← Py.contains_key "snapshots" result;
              if has_snapshots : bool then
                snapshots ← Py.getitem result "snapshots";
                n ← Py.len snapshots;
                Return (0 <? n)
              else Return false);
    if listed : bool then
      snapshots ← Py.getitem result "snapshots";
      first ← Py.getitem0 snapshots;
      Py.get first "url" JNull
    else Raise (Exception ("URL snímku nebyla nalezena v odpovědi: " +:+ Py.str data)).

Definition get_device_snapshot (access_token : json) : M string :=
  let url := IMOU_API_URL +:+ "/device/snapshot" in
  t ← time_ms_now w;
  let time_ms := Py.str_of_int t in
  let payload := snapshot_payload time_ms access_token in
  data ← requests_post w url payload headers;
  ok ← lift (snapshot_code_ok data);
  if ok : bool then
    image_url ← lift (image_url_in data);
    img_response ← requests_get w image_url 30;
    _ ← lift (raise_for_status img_response);
    mret (content img_response)
  else raise (Exception ("Chyba při získávání snímku: " +:+ Py.str data)).

Definition upload_to_google_drive (image_data filename : string) : M unit :=
  creds_dict ← lift (json_loads w GOOGLE_CREDENTIALS_JSON);
  credentials ← lift (from_service_account_info w creds_dict
                        ["https://www.googleapis.com/auth/drive.file"]);
  service ← lift (build w "drive" "v3");
  let temp_file := "/tmp/" +:+ filename in
  _ ← write_file w temp_file image_data;
  let file_metadata :=
    JObj [("name", JStr filename);
          ("parents", JArr [Py.json_of_env GOOGLE_DRIVE_FOLDER_ID])] in
  media ← media_file_upload w temp_file;
  file ← files_create_execute w file_metadata temp_file media "image/jpeg"
           "id, name, webViewLink";
  _ ← lift (Py.get file "id" JNull);
  _ ← lift (Py.get file "webViewLink" (JStr "N/A"));
  os_remove w temp_file.

Definition required_vars : list string :=
  ["IMOU_APP_ID"; "IMOU_APP_SECRET"; "IMOU_DEVICE_ID";
   "GOOGLE_DRIVE_FOLDER_ID"; "GOOGLE_CREDENTIALS_JSON"].

(** [not os.environ.get(var)]: unset, or set to the empty string. *)
Definition unset (var : string) : bool :=
  match environ w var with
  | Some v => String.eqb v ""
  | None => true
  end.

(** Lines 201 and 202. *)
Definition filename_at (t : Py.datetime) : string :=
  let timestamp := Py.strftime "%Y-%m-%d_%H-%M" t in
  "timelapse_" +:+ timestamp +:+ ".jpg".

Definition main : M unit :=
  try_except
    (let missing_vars := List.filter unset required_vars in
     _ ← (match missing_vars with
          | [] => mret tt
          | _ => raise (Exception ("Chybí environment proměnné: "
                                   +:+ Py.join ", " missing_vars))
          end);
     access_token ← get_imou_access_token;
     _ ← lift (Py.slice_prefix access_token);
     image_data ← get_device_snapshot access_token;
     let filename := filename_at (now w) in
     upload_to_google_drive image_data filename)
    (fun e => raise e).

End Timelapse.

(** The state a run starts from: the files already on disk, nothing done
    yet. *)
Definition start (disk : gmap string string) : state := State disk 0 [].

(** ** What a request looks like, and what answers it *)

(** [payload['system']['sign']] *)
Definition sign_of (payload : json) : outcome json :=
  system ← Py.getitem payload "system";
  Py.getitem system "sign".

Definition token_url : string := IMOU_API_URL +:+ "/accessToken".
Definition snapshot_url : string := IMOU_API_URL +:+ "/device/snapshot".

(** The timestamp a step that starts in [st] puts in its request. *)
Definition time_ms_at (w : world) (st : state) : string :=
  Py.str_of_int (clock_ms w (clock_reads st)).

Definition token_request (w : world) (st : state) : event :=
  EvPost token_url (token_payload w (time_ms_at w st)) headers.

Definition snapshot_request (w : world) (st : state) (access_token : json) : event :=
  EvPost snapshot_url (snapshot_payload w (time_ms_at w st) access_token) headers.

(** The vendor's answer to the token request made in [st]. *)
Definition token_answer (w : world) (st : state) : outcome json :=
  post_json w token_url (token_payload w (time_ms_at w st)) headers.

(** The vendor's answer to the snapshot request made in [st]. *)
Definition snapshot_answer (w : world) (st : state) (access_token : json)
  : outcome json :=
  post_json w snapshot_url (snapshot_payload w (time_ms_at w st) access_token) headers.

(** The state once a step that started in [st] has sent its request. *)
Definition posted (st : state) (request : event) : state :=
  State (files st) (S (clock_reads st)) (calls st ++ [request]).

(** What the download of the image at [url] comes to, lines 117 to 120. *)
Definition download (w : world) (url : json) : outcome string :=
  img_response ← get_url w (Py.str url) 30;
  _ ← raise_for_status img_response;
  Return (content img_response).

(** The state once the image at [url] has been asked for. *)
Definition asked (st : state) (url : json) : state :=
  State (files st) (clock_reads st) (calls st ++ [EvGet (Py.str url) 30]).

(** No required variable is unset, line 179. *)
Definition configured (w : world) : Prop :=
  List.filter (unset w) required_vars = [].

(** The upload step's temporary file and the metadata it sends, lines 139
    and 147 to 150. *)
Definition temp_file (filename : string) : string := "/tmp/" +:+ filename.

Definition file_metadata (w : world) (filename : string) : json :=
  JObj [("name", JStr filename);
        ("parents", JArr [Py.json_of_env (GOOGLE_DRIVE_FOLDER_ID w)])].

Definition upload_request (w : world) (image_data filename : string) : event :=
  EvUpload (file_metadata w filename) (temp_file filename) image_data
           "image/jpeg" "id, name, webViewLink".

(** The storage provider's answer to the upload. *)
Definition upload_answer (w : world) (image_data filename : string) : outcome json :=
  files_create w (file_metadata w filename) image_data
               "image/jpeg" "id, name, webViewLink".

(** The storage client can be built, lines 128 to 136. *)
Definition authorised (w : world) : Prop :=
  exists creds_dict,
    json_loads w (GOOGLE_CREDENTIALS_JSON w) = Return creds_dict
    /\ from_service_account_info w creds_dict
         ["https://www.googleapis.com/auth/drive.file"] = Return tt
    /\ build w "drive" "v3" = Return tt.

(** The state once the upload step has written [file], which is what its
    temporary path names, and sent it. *)
Definition sent (w : world) (st : state) (image_data filename file : string)
  : state :=
  State (<[file := image_data]> (files st)) (clock_reads st)
        (calls st ++ [EvWrite (temp_file filename) image_data;
                      upload_request w image_data filename]).

(** ** The status code of an answer *)

(** The answer is an object whose top-level [code] is ["0"]. *)
Definition top_code_ok (data : json) : Prop :=
  exists fields,
    data = JObj fields /\ Py.lookup "code" fields = Some (JStr "0").

(** The answer is an object whose [result] is an object with [code] ["0"]. *)
Definition nested_code_ok (data : json) : Prop :=
  exists fields result,
    data = JObj fields
    /\ Py.lookup "result" fields = Some (JObj result)
    /\ Py.lookup "code" result = Some (JStr "0").

(** An answer that reports failure in one of the two shapes: flat, with no
    [result] and a top-level [code] other than ["0"]; or nested, with no
    top-level [code] and a [code] other than ["0"] in its [result]. *)
Inductive failure_response : json -> Prop :=
| failure_flat (fields : list (string * json)) :
    Py.lookup "result" fields = None ->
    Py.lookup "code" fields <> Some (JStr "0") ->
    failure_response (JObj fields)
| failure_nested (fields result : list (string * json)) :
    Py.lookup "code" fields = None ->
    Py.lookup "result" fields = Some (JObj result) ->
    Py.lookup "code" result <> Some (JStr "0") ->
    failure_response (JObj fields).

(** ** A scripted world, to run the program on *)

Definition scripted_environ (var : string) : option string :=
  (list_to_map
     [("IMOU_APP_ID", "lc0123456789");
      ("IMOU_APP_SECRET", "secret");
      ("IMOU_DEVICE_ID", "7C0DEADBEEF");
      ("GOOGLE_DRIVE_FOLDER_ID", "folder-1");
      ("GOOGLE_CREDENTIALS_JSON", "{}")] : gmap string string) !! var.

(** Every library call is answered as scripted: the token request with
    [token], the snapshot request with [snapshot], the download of the image
    with [image], the upload with [upload]. The only directory is [/tmp]. *)
Definition scripted (token snapshot : outcome json) (image : outcome response)
    (upload : outcome json) : world :=
  World scripted_environ
        (fun n => 1714572420000 + 1000 * Z.of_nat n)
        (Py.Datetime 2024 5 1 14 7 33)
        (fun url _ _ => if String.eqb url token_url then token else snapshot)
        (fun _ _ => image)
        (fun _ => Return (JObj []))
        (fun _ _ => Return tt)
        (fun _ _ => Return tt)
        (fun _ _ _ _ => upload)
        (fun path => Raise (FileNotFoundError path)).

(** ** Looking at what a run did *)

Definition is_post (ev : event) : bool :=
  match ev with EvPost _ _ _ => true | _ => false end.

Definition is_get (ev : event) : bool :=
  match ev with EvGet _ _ => true | _ => false end.

Definition is_upload (ev : event) : bool :=
  match ev with EvUpload _ _ _ _ _ => true | _ => false end.

(** How many of the calls [l] are of the kind [p]. *)
Definition count (p : event -> bool) (l : list event) : nat :=
  length (List.filter p l).



(** The world [w] with the environment [env]. *)
Definition with_environ (env : string -> option string) (w : world) : world :=
  World env (clock_ms w) (now w) (post_json w) (get_url w) (json_loads w)
        (from_service_account_info w) (build w) (files_create w) (path_file w).

(** An environment in which one required variable is missing and another
    is set to the empty string. *)
Definition patchy_environ (var : string) : option string :=
  (list_to_map
     [("IMOU_APP_ID", "lc0123456789");
      ("IMOU_DEVICE_ID", "7C0DEADBEEF");
      ("GOOGLE_DRIVE_FOLDER_ID", "");
      ("GOOGLE_CREDENTIALS_JSON", "{}")] : gmap string string) !! var.

(** A world in which the credentials of the storage provider do not
    parse. *)
Definition unauthorised_world : world :=
  World scripted_environ (fun n => 1714572420000 + 1000 * Z.of_nat n)
        (Py.Datetime 2024 5 1 14 7 33)
        (fun _ _ _ => Return JNull)
        (fun _ _ => Raise Timeout)
        (fun _ => Raise (LibraryError "JSONDecodeError"))
        (fun _ _ => Return tt)
        (fun _ _ => Return tt)
        (fun _ _ _ _ => Return (JObj []))
        (fun path => Raise (FileNotFoundError path)).


(** [a], a no-break space (U+00A0), [b], a zero width space (U+200B), [c]
    and the letter e with caron (U+011B), in UTF-8. *)
Definition spaced : string :=
  "a" +:+ String (ascii_of_nat 194) (String (ascii_of_nat 160) "")
  +:+ "b" +:+ String (ascii_of_nat 226) (String (ascii_of_nat 128)
                (String (ascii_of_nat 139) ""))
  +:+ "c" +:+ String (ascii_of_nat 196) (String (ascii_of_nat 155) "").

(** * Properties *)

(** ** The digest *)

(** The test suite of RFC 1321, section A.5. *)
Example md5_rfc1321 :
  MD5.hexdigest "" = "d41d8cd98f00b204e9800998ecf8427e"
  /\ MD5.hexdigest "a" = "0cc175b9c0f1b6a831c399e269772661"
  /\ MD5.hexdigest "abc" = "900150983cd24fb0d6963f7d28e17f72"
  /\ MD5.hexdigest "message digest" = "f96b697d7cb7938d525a2f31aaf161d0"
  /\ MD5.hexdigest "abcdefghijklmnopqrstuvwxyz" = "c3fcd3d76192e4007dfb496cca67e13b"
  /\ MD5.hexdigest "12345678901234567890123456789012345678901234567890123456789012345678901234567890"
     = "57edf4a22be3c955ac49da2e2107b67a".
Proof. vm_compute. repeat split. Qed.

(** ** Running a step *)

Ltac unfold_run :=
  unfold requests_post, requests_get, files_create_execute, time_ms_now,
    record, raise, lift, mbind, M_bind, outcome_bind, mret, M_ret; cbn.

Lemma get_imou_access_token_run (w : world) (st : state) :
  get_imou_access_token w st =
  (match token_answer w st with
   | Return data =>
       match token_code_ok data with
       | Return true => token_in data
       | Return false =>
           Raise (Exception ("Chyba při získávání tokenu: " +:+ Py.str data))
       | Raise e => Raise e
       end
   | Raise e => Raise e
   end, posted st (token_request w st)).
Proof.
  unfold get_imou_access_token, token_answer, posted, token_request, time_ms_at.
  unfold_run. fold token_url.
  destruct (post_json w token_url _ headers) as [data|e]; [|reflexivity].
  destruct (token_code_ok data) as [[|]|e]; reflexivity.
Qed.

Lemma get_device_snapshot_run (w : world) (st : state) (access_token : json) :
  get_device_snapshot w access_token st =
  let st1 := posted st (snapshot_request w st access_token) in
  match snapshot_answer w st access_token with
  | Return data =>
      match snapshot_code_ok data with
      | Return true =>
          match image_url_in data with
          | Return url => (download w url, asked st1 url)
          | Raise e => (Raise e, st1)
          end
      | Return false =>
          (Raise (Exception ("Chyba při získávání snímku: " +:+ Py.str data)), st1)
      | Raise e => (Raise e, st1)
      end
  | Raise e => (Raise e, st1)
  end.
Proof.
  unfold get_device_snapshot, snapshot_answer, posted, snapshot_request,
    time_ms_at, download, asked, raise_for_status.
  unfold_run. fold snapshot_url.
  destruct (post_json w snapshot_url _ headers) as [data|e]; [|reflexivity].
  destruct (snapshot_code_ok data) as [[|]|e]; try reflexivity.
  destruct (image_url_in data) as [url|e]; [|reflexivity].
  destruct (get_url w (Py.str url) 30) as [r|e]; [|reflexivity].
  destruct ((400 <=? status_code r) && (status_code r <? 600)); reflexivity.
Qed.

(** [main] is its steps one after the other; the handler passes on what it
    caught. *)
Lemma main_run (w : world) (st : state) :
  configured w ->
  main w st =
  match get_imou_access_token w st with
  | (Return access_token, st1) =>
      match Py.slice_prefix access_token with
      | Return _ =>
          match get_device_snapshot w access_token st1 with
          | (Return image_data, st2) =>
              upload_to_google_drive w image_data (filename_at (now w)) st2
          | (Raise e, st2) => (Raise e, st2)
          end
      | Raise e => (Raise e, st1)
      end
  | (Raise e, st1) => (Raise e, st1)
  end.
Proof.
  unfold configured, main, try_except. intros ->.
  unfold raise, lift, mbind, M_bind, mret, M_ret.
  destruct (get_imou_access_token w st) as [[access_token|e] st1]; [|reflexivity].
  destruct (Py.slice_prefix access_token) as [[]|e]; [|reflexivity].
  destruct (get_device_snapshot w access_token st1) as [[image_data|e] st2];
    [|reflexivity].
  destruct (upload_to_google_drive w image_data (filename_at (now w)) st2)
    as [[[]|e] st3]; reflexivity.
Qed.

Lemma main_unconfigured (w : world) (st : state) :
  ~ configured w -> exists e, main w st = (Raise e, st).
Proof.
  unfold configured, main, try_except. intros H.
  destruct (List.filter (unset w) required_vars) as [|var rest]; [done|].
  eexists. reflexivity.
Qed.

(** ** The upload step *)


Lemma upload_to_google_drive_run (w : world) (st : state) (image_data filename : string) :
  authorised w ->
  upload_to_google_drive w image_data filename st =
  match file_at w (temp_file filename) with
  | Return file =>
      let st1 := sent w st image_data filename file in
      match upload_answer w image_data filename with
      | Return (JObj _) =>
          (Return tt,
           State (delete file (files st1)) (clock_reads st1)
                 (calls st1 ++ [EvRemove (temp_file filename)]))
      | Return _ => (Raise AttributeError, st1)
      | Raise e => (Raise e, st1)
      end
  | Raise e => (Raise e, st)
  end.
Proof.
  intros (creds_dict & Hloads & Hcreds & Hbuild).
  unfold upload_to_google_drive, upload_answer, sent, upload_request.
  unfold_run. rewrite Hloads. cbn. rewrite Hcreds. cbn. rewrite Hbuild. cbn.
  unfold media_file_upload, write_file, os_remove.
  fold (temp_file filename). fold (file_metadata w filename).
  destruct (file_at w (temp_file filename)) as [file|e]; [|reflexivity].
  cbn. rewrite lookup_insert_eq. cbn.
  destruct (files_create w _ image_data "image/jpeg" "id, name, webViewLink")
    as [answer|e]; [|by rewrite <- app_assoc].
  destruct answer; cbn; try by rewrite <- app_assoc.
  destruct (Py.lookup "id" fields), (Py.lookup "webViewLink" fields); cbn;
    rewrite lookup_insert_eq; by rewrite <- !app_assoc.
Qed.

(** When the upload goes through, the temporary file is gone. *)
Lemma upload_success_removes_temp_file (w : world) (st : state)
    (image_data filename path : string) (file : list (string * json)) :
  authorised w ->
  file_at w (temp_file filename) = Return path ->
  upload_answer w image_data filename = Return (JObj file) ->
  let '(r, st') := upload_to_google_drive w image_data filename st in
  r = Return tt /\ files st' !! path = None.
Proof.
  intros Hauth Hpath Hup. rewrite upload_to_google_drive_run by done.
  rewrite Hpath, Hup. cbn. split; [done|]. apply lookup_delete_eq.
Qed.

(** When the upload call raises, the step ends there, with the temporary
    file still on disk. *)
Lemma upload_failure_keeps_temp_file (w : world) (st : state)
    (image_data filename path : string) (e : exn) :
  authorised w ->
  file_at w (temp_file filename) = Return path ->
  upload_answer w image_data filename = Raise e ->
  let '(r, st') := upload_to_google_drive w image_data filename st in
  r = Raise e /\ files st' !! path = Some image_data.
Proof.
  intros Hauth Hpath Hup. rewrite upload_to_google_drive_run by done.
  rewrite Hpath, Hup. cbn. split; [done|]. apply lookup_insert_eq.
Qed.

(** C1, at a failing input. The claim is that no temporary file is left on
    any exit path of the upload step. Here the image [JFIF] is to be
    uploaded as [timelapse_2024-05-01_14-07.jpg] from an empty disk and the
    upload call raises: the step passes the exception on, and the file it
    wrote is still on disk. *)
Example upload_failure_leaves_temp_file :
  let w := scripted (Return JNull) (Return JNull) (Raise Timeout)
                    (Raise (LibraryError "HttpError 403")) in
  let run := upload_to_google_drive w "JFIF" "timelapse_2024-05-01_14-07.jpg" (start ∅) in
  run.1 = Raise (LibraryError "HttpError 403")
  /\ files run.2 !! "/tmp/timelapse_2024-05-01_14-07.jpg" = Some "JFIF"
  /\ calls run.2 =
       [EvWrite "/tmp/timelapse_2024-05-01_14-07.jpg" "JFIF";
        EvUpload (JObj [("name", JStr "timelapse_2024-05-01_14-07.jpg");
                        ("parents", JArr [JStr "folder-1"])])
                 "/tmp/timelapse_2024-05-01_14-07.jpg" "JFIF"
                 "image/jpeg" "id, name, webViewLink"].
Proof. vm_compute. repeat split. Qed.

(** ** Signatures *)

Lemma token_payload_sign (w : world) (t : string) :
  sign_of (token_payload w t) =
  Return (JStr (MD5.hexdigest (t +:+ t +:+ Py.str_of_env (IMOU_APP_SECRET w)))).
Proof. reflexivity. Qed.


Lemma token_step_calls (w : world) (st : state) :
  calls (get_imou_access_token w st).2 = (calls st ++ [token_request w st])%list.
Proof. by rewrite get_imou_access_token_run. Qed.

(** C2. For every timestamp [t] and app secret [s], the signature the token
    step puts in its request is the MD5 hex digest of [t], [t] again as the
    nonce, and [s]; it is the same in every world with that secret; and the
    request the step sends is the one built for the time it read. *)
Theorem token_signature (w : world) (t s : string) :
  IMOU_APP_SECRET w = Some s ->
  sign_of (token_payload w t) = Return (JStr (MD5.hexdigest (t +:+ t +:+ s)))
  /\ (forall w' : world,
        IMOU_APP_SECRET w' = Some s ->
        sign_of (token_payload w' t) = sign_of (token_payload w t))
  /\ (forall st : state,
        calls (get_imou_access_token w st).2 =
        (calls st ++ [EvPost token_url (token_payload w (time_ms_at w st)) headers])%list).
Proof.
  intros Hs. split; [|split].
  - rewrite token_payload_sign, Hs. reflexivity.
  - intros w' Hs'. rewrite !token_payload_sign, Hs, Hs'. reflexivity.
  - intros st. apply token_step_calls.
Qed.

Lemma token_signature_witness :
  let w := scripted (Return JNull) (Return JNull) (Raise Timeout) (Raise Timeout) in
  IMOU_APP_SECRET w = Some "secret"
  /\ sign_of (token_payload w "1714572420000")
     = Return (JStr "293526518946b601158b6a7054177d27").
Proof.
  split; [reflexivity|].
  destruct (token_signature
              (scripted (Return JNull) (Return JNull) (Raise Timeout) (Raise Timeout))
              "1714572420000" "secret" eq_refl) as [H _].
  rewrite H. vm_compute. reflexivity.
Defined.


(** ** The file name *)





(** ** Reading the vendor's answers *)

(** C3. A flat answer [{accessToken: x, code: "0"}] and a nested answer
    [{result: {accessToken: x, code: "0"}}] to the token request both make
    the token step return [x], having sent its one request. *)
Theorem token_normalization (w1 w2 : world) (st1 st2 : state) (x : json) :
  token_answer w1 st1 = Return (JObj [("accessToken", x); ("code", JStr "0")]) ->
  token_answer w2 st2
    = Return (JObj [("result", JObj [("accessToken", x); ("code", JStr "0")])]) ->
  get_imou_access_token w1 st1 = (Return x, posted st1 (token_request w1 st1))
  /\ get_imou_access_token w2 st2 = (Return x, posted st2 (token_request w2 st2)).
Proof.
  intros Hflat Hnested. rewrite !get_imou_access_token_run, Hflat, Hnested.
  split; reflexivity.
Qed.

Lemma token_normalization_witness :
  let flat := JObj [("accessToken", JStr "At_0000"); ("code", JStr "0")] in
  let nested := JObj [("result", JObj [("accessToken", JStr "At_0000"); ("code", JStr "0")])] in
  let w1 := scripted (Return flat) (Return JNull) (Raise Timeout) (Raise Timeout) in
  let w2 := scripted (Return nested) (Return JNull) (Raise Timeout) (Raise Timeout) in
  (get_imou_access_token w1 (start ∅)).1 = Return (JStr "At_0000")
  /\ (get_imou_access_token w2 (start ∅)).1 = Return (JStr "At_0000").
Proof.
  cbv zeta.
  destruct (token_normalization
    (scripted (Return (JObj [("accessToken", JStr "At_0000"); ("code", JStr "0")]))
              (Return JNull) (Raise Timeout) (Raise Timeout))
    (scripted (Return (JObj [("result", JObj [("accessToken", JStr "At_0000");
                                              ("code", JStr "0")])]))
              (Return JNull) (Raise Timeout) (Raise Timeout))
    (start ∅) (start ∅) (JStr "At_0000") eq_refl eq_refl) as [H1 H2].
  rewrite H1, H2. split; reflexivity.
Defined.

(** C5. An answer [{result: {url: u, code: "0"}}] and an answer
    [{result: {snapshots: [{url: u}], code: "0"}}] to the snapshot request
    both yield the address [u]: it is what lines 105 to 112 find in either,
    and the snapshot step goes on to download from [u] in both cases. *)
Theorem snapshot_url_normalization (u : string) :
  let direct := JObj [("result", JObj [("url", JStr u); ("code", JStr "0")])] in
  let listed :=
    JObj [("result", JObj [("snapshots", JArr [JObj [("url", JStr u)]]);
                           ("code", JStr "0")])] in
  image_url_in direct = Return (JStr u)
  /\ image_url_in listed = Return (JStr u)
  /\ forall (w : world) (st : state) (access_token data : json),
       data = direct \/ data = listed ->
       snapshot_answer w st access_token = Return data ->
       get_device_snapshot w access_token st =
       (download w (JStr u),
        asked (posted st (snapshot_request w st access_token)) (JStr u)).
Proof.
  cbv zeta. split; [reflexivity|]. split; [reflexivity|].
  intros w st access_token data Hdata Hanswer.
  rewrite get_device_snapshot_run, Hanswer.
  destruct Hdata as [-> | ->]; reflexivity.
Qed.

Lemma snapshot_url_normalization_witness :
  let u := "https://oss.example/snap/1.jpg" in
  let listed :=
    JObj [("result", JObj [("snapshots", JArr [JObj [("url", JStr u)]]);
                           ("code", JStr "0")])] in
  let w := scripted (Return JNull) (Return listed)
                    (Return (Response 200 "JFIF")) (Raise Timeout) in
  get_device_snapshot w (JStr "At_0000") (start ∅) =
  (Return "JFIF",
   State ∅ 1
     [EvPost snapshot_url
        (snapshot_payload w "1714572420000" (JStr "At_0000")) headers;
      EvGet u 30]).
Proof.
  cbv zeta.
  destruct (snapshot_url_normalization "https://oss.example/snap/1.jpg")
    as (_ & _ & H).
  rewrite (H (scripted (Return JNull)
                        (Return (JObj [("result",
                           JObj [("snapshots",
                                  JArr [JObj [("url", JStr "https://oss.example/snap/1.jpg")]]);
                                 ("code", JStr "0")])]))
                        (Return (Response 200 "JFIF")) (Raise Timeout))
             (start ∅) (JStr "At_0000") _ (or_intror eq_refl) eq_refl).
  vm_compute. reflexivity.
Defined.

(** ** The success test *)

Lemma eq_str_true (v : json) (s : string) : Py.eq_str v s = true <-> v = JStr s.
Proof.
  destruct v; cbn; try (split; [discriminate|congruence]).
  rewrite String.eqb_eq. split; congruence.
Qed.

Ltac unfold_outcome := unfold mbind, outcome_bind; cbn.

(** Line 59 lets an answer pass exactly when one of the two codes is
    ["0"]. *)
Lemma token_code_ok_true (data : json) :
  token_code_ok data = Return true <-> top_code_ok data \/ nested_code_ok data.
Proof.
  unfold token_code_ok, top_code_ok, nested_code_ok. split.
  - destruct data as [| | | | | |fields]; try discriminate.
    unfold_outcome.
    destruct (Py.lookup "code" fields) as [code|] eqn:Hcode.
    + destruct (Py.eq_str code "0") eqn:Heq.
      { apply eq_str_true in Heq as ->. eauto. }
      destruct (Py.lookup "result" fields) as [[| | | | | |result]|] eqn:Hres;
        cbn; try discriminate.
      destruct (Py.lookup "code" result) as [rcode|] eqn:Hrcode; cbn;
        [|discriminate].
      intros [= ->%eq_str_true]. right. eauto 6.
    + cbn. destruct (Py.lookup "result" fields) as [[| | | | | |result]|] eqn:Hres;
        cbn; try discriminate.
      destruct (Py.lookup "code" result) as [rcode|] eqn:Hrcode; cbn;
        [|discriminate].
      intros [= ->%eq_str_true]. right. eauto 6.
  - intros [(fields & -> & Hcode) | (fields & result & -> & Hres & Hrcode)];
      unfold_outcome.
    + by rewrite Hcode.
    + rewrite Hres. unfold_outcome. rewrite Hrcode. cbn.
      destruct (Py.lookup "code" fields) as [code|]; [|reflexivity].
      by destruct (Py.eq_str code "0").
Qed.

(** Line 103 lets the same answers pass. *)
Lemma snapshot_code_ok_true (data : json) :
  snapshot_code_ok data = Return true <-> top_code_ok data \/ nested_code_ok data.
Proof.
  unfold snapshot_code_ok, top_code_ok, nested_code_ok. split.
  - destruct data as [| | | | | |fields]; try discriminate.
    unfold_outcome.
    assert (Hnested :
      (result ← match Py.lookup "result" fields with
                | Some x => Return x
                | None => Return JNull
                end;
       if Py.truthy result
       then result0 ← match Py.lookup "result" fields with
                      | Some x => Return x
                      | None => Raise KeyError
                      end;
            rcode ← Py.get result0 "code" JNull;
            Return (Py.eq_str rcode "0")
       else Return false) = Return true ->
      exists result, Py.lookup "result" fields = Some (JObj result)
                     /\ Py.lookup "code" result = Some (JStr "0")).
    { destruct (Py.lookup "result" fields) as [result|]; unfold_outcome;
        [|discriminate].
      destruct (Py.truthy result); [|discriminate].
      destruct result as [| | | | | |result]; cbn; try discriminate.
      destruct (Py.lookup "code" result) as [rcode|] eqn:Hrcode; cbn;
        [|discriminate].
      intros [= ->%eq_str_true]. eauto. }
    destruct (Py.lookup "code" fields) as [code|] eqn:Hcode; cbn.
    + destruct (Py.eq_str code "0") eqn:Heq.
      { apply eq_str_true in Heq as ->. eauto. }
      intros (result & ? & ?)%Hnested. right. eauto 6.
    + intros (result & ? & ?)%Hnested. right. eauto 6.
  - intros [(fields & -> & Hcode) | (fields & result & -> & Hres & Hrcode)];
      unfold_outcome.
    + by rewrite Hcode.
    + rewrite Hres. unfold_outcome. rewrite Hrcode.
      destruct result; [discriminate|]. cbn.
      destruct (Py.lookup "code" fields) as [code|]; [|reflexivity].
      by destruct (Py.eq_str code "0").
Qed.

(** C9. The success test is a disjunction. Line 59 and line 103 come out
    true exactly for an answer whose top-level [code] is ["0"] or whose
    [result] is an object with [code] ["0"]. So an answer whose top-level
    [code] is ["0"] passes both whatever its [result] holds, and the token
    step goes on to look for the token, the snapshot step for the address of
    the image; an answer with only the nested [code] at ["0"] passes both as
    well; and either test comes out false, which is when the step raises
    from its failure branch, only for an answer with neither code equal to
    ["0"]. *)
Theorem success_test_is_a_disjunction (data : json) :
  (token_code_ok data = Return true <-> top_code_ok data \/ nested_code_ok data)
  /\ (snapshot_code_ok data = Return true
      <-> top_code_ok data \/ nested_code_ok data)
  /\ (top_code_ok data ->
      token_code_ok data = Return true
      /\ snapshot_code_ok data = Return true
      /\ (forall (w : world) (st : state),
            token_answer w st = Return data ->
            get_imou_access_token w st =
            (token_in data, posted st (token_request w st)))
      /\ (forall (w : world) (st : state) (access_token : json),
            snapshot_answer w st access_token = Return data ->
            get_device_snapshot w access_token st =
            let st1 := posted st (snapshot_request w st access_token) in
            match image_url_in data with
            | Return url => (download w url, asked st1 url)
            | Raise e => (Raise e, st1)
            end))
  /\ (nested_code_ok data ->
      token_code_ok data = Return true /\ snapshot_code_ok data = Return true)
  /\ (token_code_ok data = Return false ->
      ~ top_code_ok data /\ ~ nested_code_ok data
      /\ forall (w : world) (st : state),
           token_answer w st = Return data ->
           get_imou_access_token w st =
           (Raise (Exception ("Chyba při získávání tokenu: " +:+ Py.str data)),
            posted st (token_request w st)))
  /\ (snapshot_code_ok data = Return false ->
      ~ top_code_ok data /\ ~ nested_code_ok data
      /\ forall (w : world) (st : state) (access_token : json),
           snapshot_answer w st access_token = Return data ->
           get_device_snapshot w access_token st =
           (Raise (Exception ("Chyba při získávání snímku: " +:+ Py.str data)),
            posted st (snapshot_request w st access_token))).
Proof.
  split; [apply token_code_ok_true|]. split; [apply snapshot_code_ok_true|].
  split; [|split; [|split]].
  - intros Htop.
    assert (Htoken : token_code_ok data = Return true)
      by (apply token_code_ok_true; by left).
    assert (Hsnapshot : snapshot_code_ok data = Return true)
      by (apply snapshot_code_ok_true; by left).
    repeat split; try done.
    + intros w st Hanswer.
      by rewrite get_imou_access_token_run, Hanswer, Htoken.
    + intros w st access_token Hanswer.
      by rewrite get_device_snapshot_run, Hanswer, Hsnapshot.
  - intros Hnested. split.
    + apply token_code_ok_true. by right.
    + apply snapshot_code_ok_true. by right.
  - intros Hfalse.
    assert (Hno : ~ (top_code_ok data \/ nested_code_ok data))
      by (rewrite <- token_code_ok_true; congruence).
    split; [tauto|]. split; [tauto|].
    intros w st Hanswer.
    by rewrite get_imou_access_token_run, Hanswer, Hfalse.
  - intros Hfalse.
    assert (Hno : ~ (top_code_ok data \/ nested_code_ok data))
      by (rewrite <- snapshot_code_ok_true; congruence).
    split; [tauto|]. split; [tauto|].
    intros w st access_token Hanswer.
    by rewrite get_device_snapshot_run, Hanswer, Hfalse.
Qed.

Lemma success_test_is_a_disjunction_witness :
  let data :=
    JObj [("code", JStr "0");
          ("result", JObj [("code", JStr "DV1007"); ("accessToken", JStr "At_0000")])] in
  let refused := JObj [("code", JStr "SN1001")] in
  let w := scripted (Return data) (Return JNull) (Raise Timeout) (Raise Timeout) in
  let w' := scripted (Return refused) (Return JNull) (Raise Timeout) (Raise Timeout) in
  (top_code_ok data
   /\ ~ nested_code_ok data
   /\ (get_imou_access_token w (start ∅)).1 = Return (JStr "At_0000"))
  /\ (token_code_ok refused = Return false
      /\ (get_imou_access_token w' (start ∅)).1
         = Raise (Exception "Chyba při získávání tokenu: {'code': 'SN1001'}")).
Proof.
  intros data refused w w'. split.
  - assert (Htop : top_code_ok data) by (eexists; split; reflexivity).
    split; [exact Htop|]. split.
    + intros (fields & result & [= <-] & [= <-] & [=]).
    + destruct (success_test_is_a_disjunction data) as (_ & _ & H & _).
      destruct (H Htop) as (_ & _ & Hstep & _).
      rewrite (Hstep w (start ∅) eq_refl). reflexivity.
  - split; [reflexivity|].
    destruct (success_test_is_a_disjunction refused) as (_ & _ & _ & _ & H & _).
    destruct (H eq_refl) as (_ & _ & Hstep).
    rewrite (Hstep w' (start ∅) eq_refl). reflexivity.
Defined.

(** ** Failure *)

Lemma failure_response_codes (data : json) :
  failure_response data -> ~ top_code_ok data /\ ~ nested_code_ok data.
Proof.
  intros [fields Hres Hcode | fields result Hcode Hres Hrcode]; split.
  - intros (? & [= <-] & ?). congruence.
  - intros (? & ? & [= <-] & ? & ?). congruence.
  - intros (? & [= <-] & ?). congruence.
  - intros (? & ? & [= <-] & ? & ?). congruence.
Qed.

(** An answer that does not pass line 59 ends the token step with an
    exception, once its request is sent. *)
Lemma token_step_rejects (w : world) (st : state) (data : json) :
  token_answer w st = Return data ->
  token_code_ok data <> Return true ->
  exists e, get_imou_access_token w st = (Raise e, posted st (token_request w st)).
Proof.
  intros Hanswer Hno. rewrite get_imou_access_token_run, Hanswer.
  destruct (token_code_ok data) as [[|]|e]; [done| |]; eauto.
Qed.

(** An answer that does not pass line 103 ends the snapshot step with an
    exception, before anything is downloaded. *)
Lemma snapshot_step_rejects (w : world) (st : state) (access_token data : json) :
  snapshot_answer w st access_token = Return data ->
  snapshot_code_ok data <> Return true ->
  exists e, get_device_snapshot w access_token st =
            (Raise e, posted st (snapshot_request w st access_token)).
Proof.
  intros Hanswer Hno. rewrite get_device_snapshot_run, Hanswer. cbv zeta.
  destruct (snapshot_code_ok data) as [[|]|e]; [done| |]; eauto.
Qed.

(** C4. An answer whose status code is not ["0"], be it the top-level
    [code] or the [code] of its [result], so that neither is ["0"] (the flat
    and the nested shape of [failure_response] are such answers), ends the
    step that received it with an exception, and the run with it: after a
    failed token request nothing else is sent, after a failed snapshot
    request nothing is downloaded, written or uploaded. *)
Theorem failure_propagation (w : world) (st : state) (data : json) :
  ~ top_code_ok data ->
  ~ nested_code_ok data ->
  (token_answer w st = Return data ->
     exists e,
       get_imou_access_token w st = (Raise e, posted st (token_request w st))
       /\ (configured w -> main w st = (Raise e, posted st (token_request w st))))
  /\ (forall access_token : json,
        snapshot_answer w st access_token = Return data ->
        exists e, get_device_snapshot w access_token st =
                  (Raise e, posted st (snapshot_request w st access_token)))
  /\ (forall (st0 : state) (access_token : json),
        configured w ->
        get_imou_access_token w st0 = (Return access_token, st) ->
        Py.slice_prefix access_token = Return tt ->
        snapshot_answer w st access_token = Return data ->
        exists e, main w st0 =
                  (Raise e, posted st (snapshot_request w st access_token))).
Proof.
  intros Htop Hnested.
  assert (Htoken : token_code_ok data <> Return true)
    by (rewrite token_code_ok_true; tauto).
  assert (Hsnapshot : snapshot_code_ok data <> Return true)
    by (rewrite snapshot_code_ok_true; tauto).
  split; [|split].
  - intros Hanswer.
    destruct (token_step_rejects w st data Hanswer Htoken) as [e He].
    exists e. split; [done|]. intros Hconf. by rewrite main_run, He.
  - intros access_token Hanswer. by apply snapshot_step_rejects with data.
  - intros st0 access_token Hconf Hstep Hslice Hanswer.
    destruct (snapshot_step_rejects w st access_token data Hanswer Hsnapshot)
      as [e He].
    exists e. by rewrite main_run, Hstep, Hslice, He.
Qed.

Lemma failure_propagation_witness :
  let flat := JObj [("code", JStr "SN1001"); ("msg", JStr "sign error")] in
  let nested := JObj [("result", JObj [("code", JStr "DV1007"); ("msg", JStr "offline")])] in
  let token := JObj [("result", JObj [("code", JStr "0"); ("accessToken", JStr "At_0000")])] in
  let w1 := scripted (Return flat) (Return JNull) (Raise Timeout) (Raise Timeout) in
  let w2 := scripted (Return token) (Return nested) (Raise Timeout) (Raise Timeout) in
  (failure_response flat
   /\ exists e, main w1 (start ∅) = (Raise e, State ∅ 1 [token_request w1 (start ∅)]))
  /\ (failure_response nested
      /\ exists e, main w2 (start ∅) =
                   (Raise e,
                    State ∅ 2 [token_request w2 (start ∅);
                               snapshot_request w2 (State ∅ 1 []) (JStr "At_0000")])).
Proof.
  cbv zeta. split.
  - split; [apply failure_flat; [reflexivity|discriminate]|].
    destruct (failure_propagation
                (scripted (Return (JObj [("code", JStr "SN1001"); ("msg", JStr "sign error")]))
                          (Return JNull) (Raise Timeout) (Raise Timeout))
                (start ∅)
                (JObj [("code", JStr "SN1001"); ("msg", JStr "sign error")]))
      as [H _].
    + intros (? & [= <-] & [=]).
    + intros (? & ? & [= <-] & [=] & _).
    + destruct (H eq_refl) as (e & _ & Hmain).
      exists e. apply Hmain. reflexivity.
  - split; [eapply failure_nested; [reflexivity|reflexivity|discriminate]|].
    pose (w2 := scripted
            (Return (JObj [("result", JObj [("code", JStr "0");
                                            ("accessToken", JStr "At_0000")])]))
            (Return (JObj [("result", JObj [("code", JStr "DV1007");
                                            ("msg", JStr "offline")])]))
            (Raise Timeout) (Raise Timeout)).
    destruct (failure_propagation w2 (State ∅ 1 [token_request w2 (start ∅)])
                (JObj [("result", JObj [("code", JStr "DV1007"); ("msg", JStr "offline")])]))
      as (_ & _ & H).
    + intros (? & [= <-] & [=]).
    + intros (? & ? & [= <-] & [= <-] & [=]).
    + destruct (H (start ∅) (JStr "At_0000")) as [e He]; try reflexivity.
      exists e. exact He.
Defined.

(** ** The download of the image *)

(** C7, as the code has it. Once the snapshot step has the address of the
    image it asks for it with a timeout of 30. A response with a status from
    400 to 599 raises; a response with any other status, the 2xx among them,
    gives its body as the image; an exception of the request itself, a
    timeout for one, is passed on. *)
Theorem image_download (w : world) (st : state) (access_token data url : json) :
  snapshot_answer w st access_token = Return data ->
  snapshot_code_ok data = Return true ->
  image_url_in data = Return url ->
  let st' := asked (posted st (snapshot_request w st access_token)) url in
  calls st' = (calls st ++ [snapshot_request w st access_token;
                            EvGet (Py.str url) 30])%list
  /\ (forall r : response,
        get_url w (Py.str url) 30 = Return r ->
        400 <= status_code r < 600 ->
        get_device_snapshot w access_token st = (Raise (HTTPError (status_code r)), st'))
  /\ (forall r : response,
        get_url w (Py.str url) 30 = Return r ->
        ~ 400 <= status_code r < 600 ->
        get_device_snapshot w access_token st = (Return (content r), st'))
  /\ (forall r : response,
        get_url w (Py.str url) 30 = Return r ->
        200 <= status_code r < 300 ->
        get_device_snapshot w access_token st = (Return (content r), st'))
  /\ (forall e : exn,
        get_url w (Py.str url) 30 = Raise e ->
        get_device_snapshot w access_token st = (Raise e, st')).
Proof.
  intros Hanswer Hok Hurl st'.
  assert (Hrun : get_device_snapshot w access_token st = (download w url, st'))
    by (by rewrite get_device_snapshot_run, Hanswer, Hok, Hurl).
  assert (Hother : forall r : response,
            get_url w (Py.str url) 30 = Return r ->
            ~ 400 <= status_code r < 600 ->
            get_device_snapshot w access_token st = (Return (content r), st')).
  { intros r Hget Hstatus. rewrite Hrun. unfold download. rewrite Hget.
    unfold raise_for_status, mbind, outcome_bind.
    destruct (400 <=? status_code r) eqn:Hlo, (status_code r <? 600) eqn:Hhi;
      cbn; try reflexivity.
    apply Z.leb_le in Hlo. apply Z.ltb_lt in Hhi. lia. }
  split; [|split; [|split; [|split]]].
  - subst st'. cbn. by rewrite <- app_assoc.
  - intros r Hget [Hlo Hhi]. rewrite Hrun. unfold download. rewrite Hget.
    unfold raise_for_status, mbind, outcome_bind.
    apply Z.leb_le in Hlo. apply Z.ltb_lt in Hhi. by rewrite Hlo, Hhi.
  - exact Hother.
  - intros r Hget Hstatus. apply Hother; [done|lia].
  - intros e Hget. rewrite Hrun. unfold download. by rewrite Hget.
Qed.

Lemma image_download_witness :
  let data := JObj [("result", JObj [("url", JStr "https://oss.example/snap/1.jpg");
                                     ("code", JStr "0")])] in
  let w := scripted (Return JNull) (Return data)
                    (Return (Response 404 "Not Found")) (Raise Timeout) in
  (get_device_snapshot w (JStr "At_0000") (start ∅)).1 = Raise (HTTPError 404).
Proof.
  cbv zeta.
  destruct (image_download
    (scripted (Return JNull)
              (Return (JObj [("result", JObj [("url", JStr "https://oss.example/snap/1.jpg");
                                              ("code", JStr "0")])]))
              (Return (Response 404 "Not Found")) (Raise Timeout))
    (start ∅) (JStr "At_0000") _ (JStr "https://oss.example/snap/1.jpg")
    eq_refl eq_refl eq_refl) as (_ & H & _).
  rewrite (H (Response 404 "Not Found") eq_refl); [reflexivity|].
  cbn. lia.
Defined.

(** C7 as stated fails: a response with status 304, which is not a 2xx
    status, does not make the snapshot step raise; the step returns its
    body. *)
Lemma download_not_modified_returns :
  let data := JObj [("result", JObj [("url", JStr "https://oss.example/snap/1.jpg");
                                     ("code", JStr "0")])] in
  let w := scripted (Return JNull) (Return data)
                    (Return (Response 304 "")) (Raise Timeout) in
  snapshot_answer w (start ∅) (JStr "At_0000") = Return data
  /\ get_url w "https://oss.example/snap/1.jpg" 30 = Return (Response 304 "")
  /\ ~ 200 <= 304 < 300
  /\ (get_device_snapshot w (JStr "At_0000") (start ∅)).1 = Return "".
Proof.
  cbv zeta. split; [reflexivity|]. split; [reflexivity|]. split; [lia|].
  vm_compute. reflexivity.
Qed.

(** ** The errors of the token step *)

(** Looking for the token in an object that has it in neither place, and
    whose [result], if any, is an object. *)
Lemma token_in_missing (fields : list (string * json)) :
  (forall r, Py.lookup "result" fields = Some r -> exists result, r = JObj result) ->
  Py.lookup "accessToken" fields = None ->
  (forall result,
     Py.lookup "result" fields = Some (JObj result) ->
     Py.lookup "accessToken" result = None) ->
  token_in (JObj fields) =
  Raise (Exception ("Token nebyl nalezen v odpovědi: " +:+ Py.str (JObj fields))).
Proof.
  intros Hobj Hflat Hnested. unfold token_in. unfold_outcome.
  destruct (Py.lookup "result" fields) as [r|] eqn:Hres.
  - destruct (Hobj r eq_refl) as [result ->].
    rewrite bool_decide_eq_true_2 by eauto. cbn.
    rewrite (Hnested result eq_refl). rewrite bool_decide_eq_false_2 by (by intros [? ?]).
    cbn. rewrite Hflat. rewrite bool_decide_eq_false_2 by (by intros [? ?]).
    reflexivity.
  - rewrite bool_decide_eq_false_2 by (by intros [? ?]). cbn.
    rewrite Hflat. rewrite bool_decide_eq_false_2 by (by intros [? ?]).
    reflexivity.
Qed.

(** Line 59 on an object whose [result], if any, is an object: it comes
    out false when neither code is ["0"]. *)
Lemma token_code_ok_false (fields : list (string * json)) :
  (forall r, Py.lookup "result" fields = Some r -> exists result, r = JObj result) ->
  ~ top_code_ok (JObj fields) ->
  ~ nested_code_ok (JObj fields) ->
  token_code_ok (JObj fields) = Return false.
Proof.
  intros Hobj Htop Hnested.
  assert (Hno : token_code_ok (JObj fields) <> Return true)
    by (rewrite token_code_ok_true; tauto).
  revert Hno. unfold token_code_ok. unfold_outcome.
  destruct (Py.lookup "code" fields) as [code|]; cbn.
  - destruct (Py.eq_str code "0"); [done|].
    destruct (Py.lookup "result" fields) as [r|] eqn:Hres; cbn.
    + destruct (Hobj r eq_refl) as [result ->]. cbn.
      destruct (Py.lookup "code" result) as [rcode|]; cbn; [|done].
      by destruct (Py.eq_str rcode "0").
    + done.
  - destruct (Py.lookup "result" fields) as [r|] eqn:Hres; cbn.
    + destruct (Hobj r eq_refl) as [result ->]. cbn.
      destruct (Py.lookup "code" result) as [rcode|]; cbn; [|done].
      by destruct (Py.eq_str rcode "0").
    + done.
Qed.

(** Where the token step does raise with the answer: for an answer that
    is an object whose [result], when there is one, is an object too. If a
    code reports success and the token is in neither place, the step raises
    [Exception] with a message that ends in the whole answer; if no code
    reports success, it raises [Exception] with another message that ends
    in the whole answer. *)
Lemma token_errors_embed_response (w : world) (st : state)
    (fields : list (string * json)) :
  token_answer w st = Return (JObj fields) ->
  (forall r, Py.lookup "result" fields = Some r -> exists result, r = JObj result) ->
  ((top_code_ok (JObj fields) \/ nested_code_ok (JObj fields)) ->
     Py.lookup "accessToken" fields = None ->
     (forall result,
        Py.lookup "result" fields = Some (JObj result) ->
        Py.lookup "accessToken" result = None) ->
     get_imou_access_token w st =
     (Raise (Exception ("Token nebyl nalezen v odpovědi: " +:+ Py.str (JObj fields))),
      posted st (token_request w st)))
  /\ (~ top_code_ok (JObj fields) ->
      ~ nested_code_ok (JObj fields) ->
      get_imou_access_token w st =
      (Raise (Exception ("Chyba při získávání tokenu: " +:+ Py.str (JObj fields))),
       posted st (token_request w st))).
Proof.
  intros Hanswer Hobj. rewrite get_imou_access_token_run, Hanswer. split.
  - intros Hok%token_code_ok_true Hflat Hnested.
    by rewrite Hok, token_in_missing.
  - intros Htop Hnested. by rewrite token_code_ok_false.
Qed.

Example token_not_found_message :
  let w := scripted (Return (JObj [("result", JObj [("code", JStr "0"); ("data", JObj [])]);
                                   ("id", JStr "1")]))
                    (Return JNull) (Raise Timeout) (Raise Timeout) in
  (get_imou_access_token w (start ∅)).1 =
  Raise (Exception
    "Token nebyl nalezen v odpovědi: {'result': {'code': '0', 'data': {}}, 'id': '1'}").
Proof.
  cbv zeta.
  destruct (token_errors_embed_response
    (scripted (Return (JObj [("result", JObj [("code", JStr "0"); ("data", JObj [])]);
                             ("id", JStr "1")]))
              (Return JNull) (Raise Timeout) (Raise Timeout))
    (start ∅) _ eq_refl) as [H _].
  - intros r [= <-]. eauto.
  - rewrite H; [reflexivity| |reflexivity|].
    + right. eexists _, _. repeat split; reflexivity.
    + by intros result [= <-].
Qed.

(** C8, at a failing input. The claim is that the token step raises with
    the whole answer when the status code reports failure, and when it
    reports success without a token. Here the token request is answered
    [{"code": "SN1001", "result": null}]: neither code is ["0"], and the step
    raises the [AttributeError] of [None.get], which carries nothing of the
    answer, where the snapshot step, given the same answer, raises its
    [Exception] with the answer in it. Answered
    [{"code": "0", "result": null}], which reports success and has no token,
    the token step raises the [TypeError] of [in] applied to [None]. *)
Example token_error_without_response :
  let refused := JObj [("code", JStr "SN1001"); ("result", JNull)] in
  let accepted := JObj [("code", JStr "0"); ("result", JNull)] in
  let w1 := scripted (Return refused) (Return refused)
                     (Raise Timeout) (Raise Timeout) in
  let w2 := scripted (Return accepted) (Return JNull)
                     (Raise Timeout) (Raise Timeout) in
  (~ top_code_ok refused /\ ~ nested_code_ok refused
   /\ token_answer w1 (start ∅) = Return refused
   /\ get_imou_access_token w1 (start ∅)
      = (Raise AttributeError, State ∅ 1 [token_request w1 (start ∅)])
   /\ (get_device_snapshot w1 (JStr "At_0000") (start ∅)).1
      = Raise (Exception
          "Chyba při získávání snímku: {'code': 'SN1001', 'result': None}"))
  /\ (top_code_ok accepted
      /\ Py.get accepted "accessToken" JNull = Return JNull
      /\ token_answer w2 (start ∅) = Return accepted
      /\ (get_imou_access_token w2 (start ∅)).1 = Raise TypeError).
Proof.
  cbv zeta. split.
  - split; [intros (? & [= <-] & [=])|].
    split; [intros (? & ? & [= <-] & [=] & _)|].
    split; [reflexivity|]. split; vm_compute; reflexivity.
  - split; [eexists; split; reflexivity|]. repeat split.
Qed.

(** ** A whole run *)

(** With the four calls answered, a run sends the two requests, downloads
    the image, writes it, uploads it under the name of the minute and
    removes the file: the disk ends as it began. *)
Example full_run :
  let token := JObj [("result", JObj [("code", JStr "0"); ("accessToken", JStr "At_0000")])] in
  let snapshot := JObj [("result", JObj [("code", JStr "0");
                                         ("url", JStr "https://oss.example/snap/1.jpg")])] in
  let w := scripted (Return token) (Return snapshot) (Return (Response 200 "JFIF"))
                    (Return (JObj [("id", JStr "f1")])) in
  main w (start ∅) =
  (Return tt,
   State ∅ 2
     [token_request w (start ∅);
      snapshot_request w (State ∅ 1 []) (JStr "At_0000");
      EvGet "https://oss.example/snap/1.jpg" 30;
      EvWrite "/tmp/timelapse_2024-05-01_14-07.jpg" "JFIF";
      EvUpload (JObj [("name", JStr "timelapse_2024-05-01_14-07.jpg");
                      ("parents", JArr [JStr "folder-1"])])
               "/tmp/timelapse_2024-05-01_14-07.jpg" "JFIF"
               "image/jpeg" "id, name, webViewLink";
      EvRemove "/tmp/timelapse_2024-05-01_14-07.jpg"]).
Proof. vm_compute. reflexivity. Qed.

(** * Further properties of the code *)

(** ** The form of a signature *)






(** ** Reading an object *)

Lemma get_present (fields : list (string * json)) (key : string) (v default : json) :
  Py.lookup key fields = Some v -> Py.get (JObj fields) key default = Return v.
Proof. intros H. cbn. by rewrite H. Qed.

Lemma get_absent (fields : list (string * json)) (key : string) (default : json) :
  Py.lookup key fields = None -> Py.get (JObj fields) key default = Return default.
Proof. intros H. cbn. by rewrite H. Qed.

Lemma getitem_present (fields : list (string * json)) (key : string) (v : json) :
  Py.lookup key fields = Some v -> Py.getitem (JObj fields) key = Return v.
Proof. intros H. cbn. by rewrite H. Qed.

Lemma contains_key_present (fields : list (string * json)) (key : string) (v : json) :
  Py.lookup key fields = Some v -> Py.contains_key key (JObj fields) = Return true.
Proof. intros H. cbn. by rewrite H. Qed.

Lemma contains_key_absent (fields : list (string * json)) (key : string) :
  Py.lookup key fields = None -> Py.contains_key key (JObj fields) = Return false.
Proof. intros H. cbn. by rewrite H. Qed.

(** Rewrite the reads of an object with what is known of its keys. *)
Ltac read_object :=
  unfold mbind, outcome_bind;
  repeat (first [ erewrite get_present by eassumption
                | erewrite get_absent by eassumption
                | erewrite getitem_present by eassumption
                | erewrite contains_key_present by eassumption
                | erewrite contains_key_absent by eassumption ];
          cbv beta iota).

(** ** The configuration check *)

(** X2. When a required variable is unset, or set to the empty string, the
    run ends at once with an [Exception] that names the missing variables in
    the order of line 176, joined by a comma and a space; no request has
    been sent and the disk is as it was. *)
Theorem main_missing_configuration (w : world) (st : state) :
  List.filter (unset w) required_vars <> [] ->
  main w st =
  (Raise (Exception ("Chybí environment proměnné: "
                     +:+ Py.join ", " (List.filter (unset w) required_vars))),
   st).
Proof.
  intros Hmissing. unfold main, try_except.
  destruct (List.filter (unset w) required_vars) as [|var rest]; [done|].
  reflexivity.
Qed.

Lemma main_missing_configuration_witness :
  let w := with_environ patchy_environ
             (scripted (Raise Timeout) (Raise Timeout) (Raise Timeout) (Raise Timeout)) in
  main w (start ∅) =
  (Raise (Exception "Chybí environment proměnné: IMOU_APP_SECRET, GOOGLE_DRIVE_FOLDER_ID"),
   start ∅).
Proof.
  cbv zeta.
  rewrite (main_missing_configuration
             (with_environ patchy_environ
                (scripted (Raise Timeout) (Raise Timeout) (Raise Timeout) (Raise Timeout)))
             (start ∅)).
  - vm_compute. reflexivity.
  - vm_compute. discriminate.
Defined.

(** ** Where the token is looked for *)

(** X3. In an answer that reports success, the token under [result] comes
    first: when [result] is an object with an [accessToken], that is what
    the token step returns, whatever [accessToken] the top level has; the
    top-level one is returned when [result] is absent or an object without
    it. *)
Theorem nested_token_first (w : world) (st : state)
    (fields : list (string * json)) (x : json) :
  token_answer w st = Return (JObj fields) ->
  top_code_ok (JObj fields) \/ nested_code_ok (JObj fields) ->
  (exists result, Py.lookup "result" fields = Some (JObj result)
                  /\ Py.lookup "accessToken" result = Some x)
  \/ (Py.lookup "accessToken" fields = Some x
      /\ (Py.lookup "result" fields = None
          \/ exists result, Py.lookup "result" fields = Some (JObj result)
                            /\ Py.lookup "accessToken" result = None)) ->
  get_imou_access_token w st = (Return x, posted st (token_request w st)).
Proof.
  intros Hanswer Hok%token_code_ok_true Hwhere.
  rewrite get_imou_access_token_run, Hanswer, Hok. f_equal.
  unfold token_in.
  destruct Hwhere as [(result & Hres & Htok)
                     | (Htok & [Hres | (result & Hres & Hno)])];
    by read_object.
Qed.

Lemma nested_token_first_witness :
  let data :=
    JObj [("code", JStr "0"); ("accessToken", JStr "At_flat");
          ("result", JObj [("accessToken", JStr "At_nested")])] in
  let w := scripted (Return data) (Return JNull) (Raise Timeout) (Raise Timeout) in
  (get_imou_access_token w (start ∅)).1 = Return (JStr "At_nested").
Proof.
  cbv zeta.
  rewrite (nested_token_first
    (scripted (Return (JObj [("code", JStr "0"); ("accessToken", JStr "At_flat");
                             ("result", JObj [("accessToken", JStr "At_nested")])]))
              (Return JNull) (Raise Timeout) (Raise Timeout))
    (start ∅) _ (JStr "At_nested") eq_refl).
  - reflexivity.
  - left. eexists. split; reflexivity.
  - left. eexists. split; reflexivity.
Defined.

(** ** Where the address of the image is looked for *)

(** X4. In an answer that reports success, a [url] under [result] comes
    first: the snapshot step downloads from it whatever [snapshots] holds;
    and when the answer has no [result] at all, the top level is read in its
    place, so a top-level [url] is the one downloaded from. *)
Theorem direct_url_first (w : world) (st : state) (access_token : json)
    (fields : list (string * json)) (u : json) :
  snapshot_answer w st access_token = Return (JObj fields) ->
  top_code_ok (JObj fields) \/ nested_code_ok (JObj fields) ->
  (exists result, Py.lookup "result" fields = Some (JObj result)
                  /\ Py.lookup "url" result = Some u)
  \/ (Py.lookup "result" fields = None /\ Py.lookup "url" fields = Some u) ->
  get_device_snapshot w access_token st =
  (download w u, asked (posted st (snapshot_request w st access_token)) u).
Proof.
  intros Hanswer Hok%snapshot_code_ok_true Hwhere.
  rewrite get_device_snapshot_run, Hanswer, Hok. cbv zeta.
  assert (Hurl : image_url_in (JObj fields) = Return u).
  { unfold image_url_in.
    destruct Hwhere as [(result & Hres & Hu) | (Hres & Hu)]; by read_object. }
  by rewrite Hurl.
Qed.

Lemma direct_url_first_witness :
  let data :=
    JObj [("result",
           JObj [("code", JStr "0");
                 ("snapshots", JArr [JObj [("url", JStr "https://oss.example/listed.jpg")]]);
                 ("url", JStr "https://oss.example/direct.jpg")])] in
  let w := scripted (Return JNull) (Return data)
                    (Return (Response 200 "JFIF")) (Raise Timeout) in
  get_device_snapshot w (JStr "At_0000") (start ∅) =
  (Return "JFIF",
   State ∅ 1 [snapshot_request w (start ∅) (JStr "At_0000");
              EvGet "https://oss.example/direct.jpg" 30]).
Proof.
  cbv zeta.
  rewrite (direct_url_first
    (scripted (Return JNull)
       (Return (JObj [("result",
          JObj [("code", JStr "0");
                ("snapshots", JArr [JObj [("url", JStr "https://oss.example/listed.jpg")]]);
                ("url", JStr "https://oss.example/direct.jpg")])]))
       (Return (Response 200 "JFIF")) (Raise Timeout))
    (start ∅) (JStr "At_0000") _ (JStr "https://oss.example/direct.jpg") eq_refl).
  - reflexivity.
  - right. eexists _, _. repeat split; reflexivity.
  - left. eexists. split; reflexivity.
Defined.

(** X5. Without a [url] under [result], only the first of the listed
    snapshots is read: the step downloads from its [url], and when that
    first snapshot has none the step does not report a missing address, it
    hands [None] to [requests.get], whatever the later snapshots hold. *)
Theorem first_snapshot_only (w : world) (st : state) (access_token : json)
    (fields result first : list (string * json)) (others : list json) :
  snapshot_answer w st access_token = Return (JObj fields) ->
  top_code_ok (JObj fields) \/ nested_code_ok (JObj fields) ->
  Py.lookup "result" fields = Some (JObj result) ->
  Py.lookup "url" result = None ->
  Py.lookup "snapshots" result = Some (JArr (JObj first :: others)) ->
  let url := match Py.lookup "url" first with
             | Some u => u
             | None => JNull
             end in
  get_device_snapshot w access_token st =
  (download w url, asked (posted st (snapshot_request w st access_token)) url).
Proof.
  intros Hanswer Hok%snapshot_code_ok_true Hres Hurl Hsnaps url.
  rewrite get_device_snapshot_run, Hanswer, Hok. cbv zeta.
  assert (Hin : image_url_in (JObj fields) = Return url).
  { unfold image_url_in. read_object. cbn.
    subst url. by destruct (Py.lookup "url" first). }
  by rewrite Hin.
Qed.

Lemma first_snapshot_only_witness :
  let data :=
    JObj [("result",
           JObj [("code", JStr "0");
                 ("snapshots", JArr [JObj [("time", JInt 1714572420)];
                                     JObj [("url", JStr "https://oss.example/2.jpg")]])])] in
  let w := scripted (Return JNull) (Return data)
                    (Raise (LibraryError "MissingSchema")) (Raise Timeout) in
  get_device_snapshot w (JStr "At_0000") (start ∅) =
  (Raise (LibraryError "MissingSchema"),
   State ∅ 1 [snapshot_request w (start ∅) (JStr "At_0000"); EvGet "None" 30]).
Proof.
  cbv zeta.
  rewrite (first_snapshot_only
    (scripted (Return JNull)
       (Return (JObj [("result",
          JObj [("code", JStr "0");
                ("snapshots", JArr [JObj [("time", JInt 1714572420)];
                                    JObj [("url", JStr "https://oss.example/2.jpg")]])])]))
       (Raise (LibraryError "MissingSchema")) (Raise Timeout))
    (start ∅) (JStr "At_0000") _
    [("code", JStr "0");
     ("snapshots", JArr [JObj [("time", JInt 1714572420)];
                         JObj [("url", JStr "https://oss.example/2.jpg")]])]
    [("time", JInt 1714572420)]
    [JObj [("url", JStr "https://oss.example/2.jpg")]] eq_refl).
  - reflexivity.
  - right. eexists _, _. repeat split; reflexivity.
  - reflexivity.
  - reflexivity.
  - reflexivity.
Defined.

(** X6. An answer that reports success but has, under [result], neither a
    [url] nor a snapshot listed (no [snapshots], or an empty list) ends the
    snapshot step with an [Exception] whose message ends in the whole
    answer; nothing is downloaded. *)
Theorem snapshot_url_missing (w : world) (st : state) (access_token : json)
    (fields result : list (string * json)) :
  snapshot_answer w st access_token = Return (JObj fields) ->
  top_code_ok (JObj fields) \/ nested_code_ok (JObj fields) ->
  Py.lookup "result" fields = Some (JObj result) ->
  Py.lookup "url" result = None ->
  Py.lookup "snapshots" result = None
  \/ Py.lookup "snapshots" result = Some (JArr []) ->
  get_device_snapshot w access_token st =
  (Raise (Exception ("URL snímku nebyla nalezena v odpovědi: "
                     +:+ Py.str (JObj fields))),
   posted st (snapshot_request w st access_token)).
Proof.
  intros Hanswer Hok%snapshot_code_ok_true Hres Hurl Hsnaps.
  rewrite get_device_snapshot_run, Hanswer, Hok. cbv zeta.
  assert (Hin : image_url_in (JObj fields) =
                Raise (Exception ("URL snímku nebyla nalezena v odpovědi: "
                                  +:+ Py.str (JObj fields)))).
  { unfold image_url_in. destruct Hsnaps as [Hsnaps | Hsnaps]; by read_object. }
  by rewrite Hin.
Qed.

Lemma snapshot_url_missing_witness :
  let data := JObj [("result", JObj [("code", JStr "0"); ("snapshots", JArr [])])] in
  let w := scripted (Return JNull) (Return data)
                    (Return (Response 200 "JFIF")) (Raise Timeout) in
  get_device_snapshot w (JStr "At_0000") (start ∅) =
  (Raise (Exception
     "URL snímku nebyla nalezena v odpovědi: {'result': {'code': '0', 'snapshots': []}}"),
   State ∅ 1 [snapshot_request w (start ∅) (JStr "At_0000")]).
Proof.
  cbv zeta.
  rewrite (snapshot_url_missing
    (scripted (Return JNull)
       (Return (JObj [("result", JObj [("code", JStr "0"); ("snapshots", JArr [])])]))
       (Return (Response 200 "JFIF")) (Raise Timeout))
    (start ∅) (JStr "At_0000") _ [("code", JStr "0"); ("snapshots", JArr [])] eq_refl).
  - reflexivity.
  - right. eexists _, _. repeat split; reflexivity.
  - reflexivity.
  - reflexivity.
  - right. reflexivity.
Defined.

(** ** How the snapshot step refuses an answer *)

(** Line 103 on an object whose [result], if any, is falsy or an object:
    it comes out false when neither code is ["0"]. *)
Lemma snapshot_code_ok_false (fields : list (string * json)) :
  (forall r, Py.lookup "result" fields = Some r ->
             Py.truthy r = false \/ exists result, r = JObj result) ->
  ~ top_code_ok (JObj fields) ->
  ~ nested_code_ok (JObj fields) ->
  snapshot_code_ok (JObj fields) = Return false.
Proof.
  intros Hshape Htop Hnested.
  assert (Hno : snapshot_code_ok (JObj fields) <> Return true)
    by (rewrite snapshot_code_ok_true; tauto).
  revert Hno. unfold snapshot_code_ok.
  assert (Hrest : forall r,
            Py.truthy r = false \/ (exists result, r = JObj result) ->
            (if Py.truthy r
             then rcode ← Py.get r "code" JNull; Return (Py.eq_str rcode "0")
             else Return false) <> Return true ->
            (if Py.truthy r
             then rcode ← Py.get r "code" JNull; Return (Py.eq_str rcode "0")
             else Return false) = Return false).
  { intros r [-> | [result ->]]; [done|].
    destruct (Py.truthy (JObj result)); [|done].
    destruct (Py.lookup "code" result) as [rcode|] eqn:Hrcode; read_object;
      [by destruct (Py.eq_str rcode "0")|done]. }
  destruct (Py.lookup "code" fields) as [code|] eqn:Hcode;
    destruct (Py.lookup "result" fields) as [r|] eqn:Hres; read_object;
    try (destruct (Py.eq_str code "0"); [done|]); try done;
    apply Hrest; auto.
Qed.

(** X7. An answer in which neither code is ["0"], and whose [result] is
    absent, falsy ([null] among others) or an object, ends the snapshot step
    with an [Exception] whose message ends in the whole answer, right after
    the request: a [result] of [null] is not read any further. *)
Theorem snapshot_failure_embeds_response (w : world) (st : state)
    (access_token : json) (fields : list (string * json)) :
  snapshot_answer w st access_token = Return (JObj fields) ->
  ~ top_code_ok (JObj fields) ->
  ~ nested_code_ok (JObj fields) ->
  (forall r, Py.lookup "result" fields = Some r ->
             Py.truthy r = false \/ exists result, r = JObj result) ->
  get_device_snapshot w access_token st =
  (Raise (Exception ("Chyba při získávání snímku: " +:+ Py.str (JObj fields))),
   posted st (snapshot_request w st access_token)).
Proof.
  intros Hanswer Htop Hnested Hshape.
  by rewrite get_device_snapshot_run, Hanswer, snapshot_code_ok_false.
Qed.

Lemma snapshot_failure_embeds_response_witness :
  let data := JObj [("code", JStr "DV1007"); ("result", JNull)] in
  let w := scripted (Return JNull) (Return data)
                    (Return (Response 200 "JFIF")) (Raise Timeout) in
  get_device_snapshot w (JStr "At_0000") (start ∅) =
  (Raise (Exception "Chyba při získávání snímku: {'code': 'DV1007', 'result': None}"),
   State ∅ 1 [snapshot_request w (start ∅) (JStr "At_0000")]).
Proof.
  cbv zeta.
  rewrite (snapshot_failure_embeds_response
    (scripted (Return JNull) (Return (JObj [("code", JStr "DV1007"); ("result", JNull)]))
              (Return (Response 200 "JFIF")) (Raise Timeout))
    (start ∅) (JStr "At_0000") [("code", JStr "DV1007"); ("result", JNull)] eq_refl).
  - reflexivity.
  - intros (? & [= <-] & [=]).
  - intros (? & ? & [= <-] & [=] & _).
  - intros r [= <-]. by left.
Defined.

(** ** The two success tests side by side *)

(** X8. Wherever the test of the token step, line 59, yields a value, the
    test of the snapshot step, line 103, yields the same value for the same
    answer. *)
Theorem success_tests_agree (data : json) (b : bool) :
  token_code_ok data = Return b -> snapshot_code_ok data = Return b.
Proof.
  destruct b.
  - rewrite token_code_ok_true. apply snapshot_code_ok_true.
  - intros Hfalse.
    assert (Hno : ~ (top_code_ok data \/ nested_code_ok data))
      by (rewrite <- token_code_ok_true; congruence).
    destruct data as [| | | | | |fields]; try discriminate.
    apply snapshot_code_ok_false; [|tauto|tauto].
    intros r Hres. right.
    revert Hfalse. unfold token_code_ok. unfold_outcome. rewrite Hres. cbn.
    destruct (Py.lookup "code" fields) as [code|]; cbn.
    + destruct (Py.eq_str code "0"); [discriminate|].
      destruct r; try discriminate. eauto.
    + destruct r; try discriminate. eauto.
Qed.

Lemma success_tests_agree_witness :
  token_code_ok (JObj [("result", JObj [("code", JStr "DV1007")])]) = Return false
  /\ snapshot_code_ok (JObj [("result", JObj [("code", JStr "DV1007")])]) = Return false.
Proof.
  split; [reflexivity|].
  apply (success_tests_agree (JObj [("result", JObj [("code", JStr "DV1007")])]) false).
  reflexivity.
Defined.

(** ** The disk *)

Lemma token_step_files (w : world) (st : state) :
  files (get_imou_access_token w st).2 = files st.
Proof. by rewrite get_imou_access_token_run. Qed.

Lemma snapshot_step_files (w : world) (st : state) (access_token : json) :
  files (get_device_snapshot w access_token st).2 = files st.
Proof.
  rewrite get_device_snapshot_run. cbv zeta.
  destruct (snapshot_answer w st access_token) as [data|e]; [|done].
  destruct (snapshot_code_ok data) as [[|]|e]; try done.
  by destruct (image_url_in data).
Qed.

(** X9. The token step and the snapshot step keep the image in memory:
    whatever they are answered, the files on disk after either step are the
    files before it. *)
Theorem requests_leave_disk (w : world) (st : state) (access_token : json) :
  files (get_imou_access_token w st).2 = files st
  /\ files (get_device_snapshot w access_token st).2 = files st.
Proof. split; [apply token_step_files|apply snapshot_step_files]. Qed.

(** The storage client is built, or the upload step ends before it has
    done anything. *)
Lemma upload_authorised_or_refused (w : world) (st : state)
    (image_data filename : string) :
  authorised w
  \/ exists e, upload_to_google_drive w image_data filename st = (Raise e, st).
Proof.
  unfold authorised, upload_to_google_drive. unfold_run.
  destruct (json_loads w (GOOGLE_CREDENTIALS_JSON w)) as [creds_dict|e] eqn:Hloads;
    cbn; [|eauto].
  destruct (from_service_account_info w creds_dict _) as [[]|e] eqn:Hcreds;
    cbn; [|eauto].
  destruct (build w "drive" "v3") as [[]|e] eqn:Hbuild; cbn; [|eauto].
  left. eauto.
Qed.

(** X10. When the credentials do not parse, or no client can be built from
    them, the upload step raises before it writes anything: the disk and the
    list of calls are as they were. *)
Theorem upload_refused_writes_nothing (w : world) (st : state)
    (image_data filename : string) :
  ~ authorised w ->
  exists e, upload_to_google_drive w image_data filename st = (Raise e, st).
Proof.
  intros Hno.
  by destruct (upload_authorised_or_refused w st image_data filename).
Qed.

Lemma upload_refused_writes_nothing_witness :
  upload_to_google_drive unauthorised_world "JFIF" "timelapse_2024-05-01_14-07.jpg"
                         (start ∅)
  = (Raise (LibraryError "JSONDecodeError"), start ∅).
Proof.
  destruct (upload_refused_writes_nothing unauthorised_world (start ∅)
              "JFIF" "timelapse_2024-05-01_14-07.jpg") as [e He].
  - intros (creds_dict & [=] & _).
  - rewrite He. revert He. vm_compute. by intros [= <-].
Defined.





(** X17. When the client is built but [/tmp/<filename>] cannot be opened for
    writing (the name leads through a directory that is not there, or is
    empty, so that the path is [/tmp/] itself), the step raises what [open]
    raises: nothing is written, nothing is uploaded. *)
Theorem upload_unopenable_writes_nothing (w : world) (st : state)
    (image_data filename : string) (e : exn) :
  authorised w ->
  file_at w (temp_file filename) = Raise e ->
  upload_to_google_drive w image_data filename st = (Raise e, st).
Proof.
  intros Hauth Hfile. rewrite upload_to_google_drive_run by done.
  by rewrite Hfile.
Qed.

Lemma upload_unopenable_writes_nothing_witness :
  let w := scripted (Return JNull) (Return JNull) (Raise Timeout)
                    (Return (JObj [("id", JStr "f1")])) in
  upload_to_google_drive w "JFIF" "nodir/x.jpg" (start ∅)
  = (Raise (FileNotFoundError "/tmp/nodir/x.jpg"), start ∅)
  /\ upload_to_google_drive w "JFIF" "" (start ∅)
     = (Raise (FileNotFoundError "/tmp/"), start ∅).
Proof.
  intros w. split.
  - apply (upload_unopenable_writes_nothing w (start ∅) "JFIF" "nodir/x.jpg").
    + exists (JObj []). repeat split.
    + reflexivity.
  - apply (upload_unopenable_writes_nothing w (start ∅) "JFIF" "").
    + exists (JObj []). repeat split.
    + reflexivity.
Defined.

(** ** The name of the minute is a plain name *)






(** ** A whole run, in general *)

Lemma count_app (p : event -> bool) (l1 l2 : list event) :
  count p (l1 ++ l2) = (count p l1 + count p l2)%nat.
Proof. unfold count. by rewrite List.filter_app, length_app. Qed.

Lemma snapshot_step_calls (w : world) (st : state) (access_token : json) :
  exists l,
    calls (get_device_snapshot w access_token st).2
    = (calls st ++ snapshot_request w st access_token :: l)%list
    /\ count is_post l = 0%nat /\ (count is_get l <= 1)%nat
    /\ count is_upload l = 0%nat.
Proof.
  rewrite get_device_snapshot_run. cbv zeta.
  destruct (snapshot_answer w st access_token) as [data|e];
    [|by exists []; repeat split; cbn; lia].
  destruct (snapshot_code_ok data) as [[|]|e];
    try (by exists []; repeat split; cbn; lia).
  destruct (image_url_in data) as [url|e];
    [|by exists []; repeat split; cbn; lia].
  exists [EvGet (Py.str url) 30]. cbn. rewrite <- app_assoc.
  repeat split; cbn; lia.
Qed.

Lemma upload_step_calls (w : world) (st : state) (image_data filename : string) :
  exists l,
    calls (upload_to_google_drive w image_data filename st).2 = (calls st ++ l)%list
    /\ count is_post l = 0%nat /\ count is_get l = 0%nat
    /\ (count is_upload l <= 1)%nat.
Proof.
  destruct (upload_authorised_or_refused w st image_data filename)
    as [Hauth | [e ->]];
    [|by exists []; rewrite app_nil_r; repeat split; cbn; lia].
  rewrite upload_to_google_drive_run by done.
  destruct (file_at w (temp_file filename)) as [path|e];
    [|by exists []; rewrite app_nil_r; repeat split; cbn; lia].
  cbv zeta.
  destruct (upload_answer w image_data filename) as [[| | | | | |file]|e];
    try (by eexists; split; [reflexivity|]; repeat split; cbn; lia).
  eexists. cbn. rewrite <- app_assoc. split; [reflexivity|].
  repeat split; cbn; lia.
Qed.

(** X13. Nothing is tried twice. Whatever the world answers, a run sends at
    most two POST requests, downloads at most once and uploads at most
    once. *)
Theorem run_tries_once (w : world) (st : state) :
  exists l,
    calls (main w st).2 = (calls st ++ l)%list
    /\ (count is_post l <= 2)%nat
    /\ (count is_get l <= 1)%nat
    /\ (count is_upload l <= 1)%nat.
Proof.
  destruct (List.filter (unset w) required_vars) as [|var rest] eqn:Hconf.
  - rewrite main_run by done.
    pose proof (token_step_calls w st) as Htoken.
    destruct (get_imou_access_token w st) as [[access_token|e] st1];
      cbn in Htoken;
      [|by exists [token_request w st]; split; [exact Htoken|];
          unfold token_request; repeat split; cbn; lia].
    destruct (Py.slice_prefix access_token) as [[]|e];
      [|by exists [token_request w st]; split; [exact Htoken|];
          unfold token_request; repeat split; cbn; lia].
    destruct (snapshot_step_calls w st1 access_token)
      as (l2 & Hsnapshot & Hpost2 & Hget2 & Hup2).
    destruct (get_device_snapshot w access_token st1) as [[image_data|e] st2];
      cbn in Hsnapshot.
    + destruct (upload_step_calls w st2 image_data (filename_at (now w)))
        as (l3 & Hupload & Hpost3 & Hget3 & Hup3).
      exists ([token_request w st]
              ++ (snapshot_request w st1 access_token :: l2) ++ l3)%list.
      split.
      * rewrite Hupload, Hsnapshot, Htoken. by rewrite <- !app_assoc.
      * rewrite !count_app.
        change (snapshot_request w st1 access_token :: l2)
          with ([snapshot_request w st1 access_token] ++ l2)%list.
        rewrite !count_app. unfold token_request, snapshot_request. cbn. lia.
    + exists ([token_request w st]
              ++ (snapshot_request w st1 access_token :: l2))%list.
      split.
      * cbn. rewrite Hsnapshot, Htoken. by rewrite <- !app_assoc.
      * change (snapshot_request w st1 access_token :: l2)
          with ([snapshot_request w st1 access_token] ++ l2)%list.
        rewrite !count_app. unfold token_request, snapshot_request. cbn. lia.
  - destruct (main_unconfigured w st) as [e ->];
      [unfold configured; by rewrite Hconf|].
    exists []. rewrite app_nil_r. repeat split; cbn; lia.
Qed.



(** X15. A token that cannot be sliced ends the run between the first two
    steps: line 191 takes [access_token[:20]] for its message, so when the
    token step returns a number, [null], a boolean or an object, the run
    raises there, with the token request the only call made. *)
Theorem unsliceable_token_aborts (w : world) (st st1 : state)
    (access_token : json) (e : exn) :
  configured w ->
  get_imou_access_token w st = (Return access_token, st1) ->
  Py.slice_prefix access_token = Raise e ->
  main w st = (Raise e, posted st (token_request w st)).
Proof.
  intros Hconf Htoken Hslice.
  rewrite main_run by done. rewrite Htoken, Hslice.
  rewrite get_imou_access_token_run in Htoken. by injection Htoken as _ <-.
Qed.

Lemma unsliceable_token_aborts_witness :
  let token := JObj [("result", JObj [("code", JStr "0"); ("accessToken", JInt 12345)])] in
  let w := scripted (Return token) (Return JNull) (Raise Timeout) (Raise Timeout) in
  main w (start ∅) = (Raise TypeError, State ∅ 1 [token_request w (start ∅)]).
Proof.
  intros token w.
  rewrite (unsliceable_token_aborts w (start ∅)
             (State ∅ 1 [token_request w (start ∅)]) (JInt 12345) TypeError).
  - reflexivity.
  - vm_compute. reflexivity.
  - vm_compute. reflexivity.
  - reflexivity.
Defined.

(** X16. The handler of [main], lines 213 to 220, passes on what it caught:
    when a step raises, the run raises the same exception and ends in the
    state that step left, be it the token step, the snapshot step or the
    upload step. *)
Theorem main_reraises (w : world) (st : state) :
  configured w ->
  (forall e st1,
     get_imou_access_token w st = (Raise e, st1) -> main w st = (Raise e, st1))
  /\ (forall access_token st1 e st2,
        get_imou_access_token w st = (Return access_token, st1) ->
        Py.slice_prefix access_token = Return tt ->
        get_device_snapshot w access_token st1 = (Raise e, st2) ->
        main w st = (Raise e, st2))
  /\ (forall access_token st1 image_data st2 e st3,
        get_imou_access_token w st = (Return access_token, st1) ->
        Py.slice_prefix access_token = Return tt ->
        get_device_snapshot w access_token st1 = (Return image_data, st2) ->
        upload_to_google_drive w image_data (filename_at (now w)) st2 = (Raise e, st3) ->
        main w st = (Raise e, st3)).
Proof.
  intros Hconf. rewrite main_run by done. repeat split.
  - by intros e st1 ->.
  - by intros access_token st1 e st2 -> -> ->.
  - by intros access_token st1 image_data st2 e st3 -> -> -> ->.
Qed.

Lemma main_reraises_witness :
  let token := JObj [("result", JObj [("code", JStr "0"); ("accessToken", JStr "At_0000")])] in
  let snapshot := JObj [("result", JObj [("code", JStr "0");
                                         ("url", JStr "https://oss.example/snap/1.jpg")])] in
  let w := scripted (Return token) (Return snapshot) (Return (Response 200 "JFIF"))
                    (Raise (LibraryError "HttpError 403")) in
  let run := main w (start ∅) in
  run.1 = Raise (LibraryError "HttpError 403")
  /\ files run.2 !! "/tmp/timelapse_2024-05-01_14-07.jpg" = Some "JFIF".
Proof.
  intros token snapshot w run. subst run.
  destruct (main_reraises w (start ∅)) as (_ & _ & H); [reflexivity|].
  rewrite (H (JStr "At_0000") (State ∅ 1 [token_request w (start ∅)])
             "JFIF"
             (State ∅ 2 [token_request w (start ∅);
                         snapshot_request w (State ∅ 1 []) (JStr "At_0000");
                         EvGet "https://oss.example/snap/1.jpg" 30])
             (LibraryError "HttpError 403")
             (upload_to_google_drive w "JFIF" (filename_at (now w))
                (State ∅ 2 [token_request w (start ∅);
                            snapshot_request w (State ∅ 1 []) (JStr "At_0000");
                            EvGet "https://oss.example/snap/1.jpg" 30])).2).
  - split; [reflexivity|]. vm_compute. reflexivity.
  - vm_compute. reflexivity.
  - reflexivity.
  - vm_compute. reflexivity.
  - vm_compute. reflexivity.
Defined.

(** ** The text of an answer *)

(** [repr] writes a character that is not printable by its code point and
    leaves a printable one as it is, in a [str] and in the [dict] around it;
    the message of the snapshot step carries the answer in that form. *)
Example repr_escapes :
  Py.chars spaced
  = ["a"; String (ascii_of_nat 194) (String (ascii_of_nat 160) ""); "b";
     String (ascii_of_nat 226) (String (ascii_of_nat 128)
       (String (ascii_of_nat 139) ""));
     "c"; String (ascii_of_nat 196) (String (ascii_of_nat 155) "")]
  /\ Py.repr (JStr spaced)
     = "'a\xa0b\u200bc" +:+ String (ascii_of_nat 196) (String (ascii_of_nat 155) "'")
  /\ Py.repr (JStr (String (ascii_of_nat 127) "it's"))
     = String (ascii_of_nat 34) "\x7fit's" +:+ String (ascii_of_nat 34) ""
  /\ (let data := JObj [("code", JStr "DV1007");
                        ("msg", JStr (String (ascii_of_nat 194)
                                        (String (ascii_of_nat 160) "")))] in
      let w := scripted (Return JNull) (Return data)
                        (Raise Timeout) (Raise Timeout) in
      (get_device_snapshot w (JStr "At_0000") (start ∅)).1
      = Raise (Exception
          "Chyba při získávání snímku: {'code': 'DV1007', 'msg': '\xa0'}")).
Proof. vm_compute. repeat split. Qed.
